(** * SteamShare inventory route: a shallow embedding and its properties

    The development follows the inventory route handler: the
    type guard [isValidInventoryItem], the two identifier helpers
    [getContextId] and [getInventoryAppId], and the [GET] handler.

    Conventions of the embedding.
    - A JavaScript string is a [string]: the bytes of its UTF-8 encoding,
      where a lone surrogate (which a JSON escape can produce) is the three
      bytes ED A0..BF xx ([JS.wellFormed] tells whether a string has none).
    - A JavaScript number is an integer [Z], with [NaN] as the [None] of an
      [option Z]; an appid, whose text the route compares, is a [JS.number],
      which also has the two infinities.  Integer arithmetic and decimal
      text are those of the engine for safe integers (below 2^53 in
      magnitude); beyond, the engine rounds to doubles and writes exponents,
      so a statement that depends on the value or the text of a number of
      the query or of the upstream payload carries that bound.  Numbers with
      a fraction are not represented.
    - Objects have the properties their TypeScript interfaces declare, each
      one optional: [None] stands for [undefined] (and for a JSON [null]
      where the code only tests truthiness).
    - Exceptions, early [return]s and the outbound [fetch] are explicit in
      the monad [M]; console output is left out.
    - The [headers] of a response are those the handler sets itself, as it
      spells them; the [content-type] that [NextResponse.json] adds on its
      own is not listed.
    - What the route imports ([validateSteamSession], [config]) and the
      host built-ins whose result depends on the engine ([JSON.parse],
      [localeCompare], [fetch]) are fields of the record [Host]. *)

From Stdlib Require Import ZArith List String Ascii Bool Lia Sorted.
From Stdlib Require Import Permutation.
From Stdlib Require Import DecimalString Decimal DecimalPos DecimalZ DecimalN.
Import ListNotations.
Local Open Scope string_scope.
Local Open Scope Z_scope.
Local Open Scope list_scope.

Set Implicit Arguments.

(** ** JavaScript built-ins used by the route *)

Module JS.

(** [undefined], [null] or a value: needed where the code passes a property
    through untouched and the difference shows in the JSON response. *)
Inductive maybe (A : Type) : Type :=
| Undefined : maybe A
| Null : maybe A
| Val : A -> maybe A.
Arguments Undefined {A}.
Arguments Null {A}.

(** Truthiness of an optional string: [undefined] and [""] are falsy. *)
Definition truthy (s : option string) : bool :=
  match s with
  | Some EmptyString => false
  | Some _ => true
  | None => false
  end.

(** A number of the upstream payload whose text matters: an integer, or one
    of the infinities that [JSON.parse] makes of a literal beyond the range
    of doubles such as [1e999]. *)
Inductive number : Type :=
| Int (z : Z)
| Infinity
| NegInfinity.

(** Truthiness of an optional payload number: [undefined] and [0] are
    falsy, the infinities are not. *)
Definition truthyNumber (n : option number) : bool :=
  match n with
  | Some (Int 0) => false
  | Some _ => true
  | None => false
  end.

(** [Number.isSafeInteger]: an integer below 2^53 in magnitude. *)
Definition isSafeInteger (n : number) : bool :=
  match n with
  | Int z => (- 9007199254740992 <? z) && (z <? 9007199254740992)
  | Infinity => false
  | NegInfinity => false
  end.

(** The payload number is a safe integer or an infinity: its text is the
    one [number_toString] gives. *)
Definition hasExactText (n : number) : bool :=
  match n with
  | Int _ => isSafeInteger n
  | Infinity => true
  | NegInfinity => true
  end.

(** [typeof x === 'number'] and [Array.isArray(x)] on a typed optional
    property: the property is there. *)
Definition isSome {A : Type} (x : option A) : bool :=
  match x with Some _ => true | None => false end.

(** [a || b] on strings. *)
Definition orElse (a : option string) (b : option string) : option string :=
  if truthy a then a else b.

Definition code (c : ascii) : Z := Z.of_N (N_of_ascii c).

(** *** parseInt *)

(** One-byte white space and line terminators: TAB, LF, VT, FF, CR, SP. *)
Definition isWhite1 (c : Z) : bool :=
  (9 <=? c) && (c <=? 13) || (c =? 32).

(** U+00A0 in UTF-8. *)
Definition isWhite2 (c c1 : Z) : bool :=
  (c =? 194) && (c1 =? 160).

(** U+1680, U+2000..U+200A, U+2028, U+2029, U+202F, U+205F, U+3000 and
    U+FEFF in UTF-8. *)
Definition isWhite3 (c c1 c2 : Z) : bool :=
  (c =? 225) && (c1 =? 154) && (c2 =? 128)
  || (c =? 226) && (c1 =? 128)
     && ((128 <=? c2) && (c2 <=? 138) || (c2 =? 168) || (c2 =? 169) || (c2 =? 175))
  || (c =? 226) && (c1 =? 129) && (c2 =? 159)
  || (c =? 227) && (c1 =? 128) && (c2 =? 128)
  || (c =? 239) && (c1 =? 187) && (c2 =? 191).

(** [TrimString(s, start)]. *)
Fixpoint trimStart (s : string) : string :=
  match s with
  | EmptyString => s
  | String c s1 =>
    if isWhite1 (code c) then trimStart s1 else
    match s1 with
    | EmptyString => s
    | String c1 s2 =>
      if isWhite2 (code c) (code c1) then trimStart s2 else
      match s2 with
      | EmptyString => s
      | String c2 s3 =>
        if isWhite3 (code c) (code c1) (code c2) then trimStart s3 else s
      end
    end
  end.

(** Value of a digit character, in any radix up to 36. *)
Definition digitValue (c : ascii) : option Z :=
  let n := code c in
  if (48 <=? n) && (n <=? 57) then Some (n - 48)
  else if (97 <=? n) && (n <=? 122) then Some (n - 87)
  else if (65 <=? n) && (n <=? 90) then Some (n - 55)
  else None.

Definition radixDigit (radix : Z) (c : ascii) : option Z :=
  match digitValue c with
  | Some d => if d <? radix then Some d else None
  | None => None
  end.

(** The longest prefix of radix digits, read as a number; [None] when the
    prefix is empty.  [acc] is [None] until a digit has been read.  The
    value is the mathematical one; the engine rounds it to the nearest
    double, which is the same number below 2^53. *)
Fixpoint readDigits (radix : Z) (acc : option Z) (s : string) : option Z :=
  match s with
  | EmptyString => acc
  | String c s' =>
    match radixDigit radix c with
    | Some d =>
      readDigits radix
        (Some (match acc with Some a => a * radix + d | None => d end)) s'
    | None => acc
    end
  end.

Definition isX (c : ascii) : bool := (code c =? 120) || (code c =? 88).

(** After the sign: an optional [0x] / [0X] prefix selects radix 16. *)
Definition parseUnsigned (s : string) : option Z :=
  match s with
  | String z (String x s') =>
    if (code z =? 48) && isX x then readDigits 16 None s'
    else readDigits 10 None s
  | _ => readDigits 10 None s
  end.

(** [parseInt(s)] with no radix argument; [None] is [NaN].  Whether the
    result is [NaN] is exact; its value is exact below 2^53 in magnitude. *)
Definition parseInt (s : string) : option Z :=
  match trimStart s with
  | String c s' =>
    if code c =? 45 then option_map Z.opp (parseUnsigned s')
    else if code c =? 43 then parseUnsigned s'
    else parseUnsigned (String c s')
  | EmptyString => None
  end.

(** [isNaN]. *)
Definition isNaN (n : option Z) : bool :=
  match n with Some _ => false | None => true end.

(** [Math.min(n, m)]: [NaN] as soon as an argument is. *)
Definition Math_min (n m : option Z) : option Z :=
  match n, m with
  | Some a, Some b => Some (Z.min a b)
  | _, _ => None
  end.

(** [n > m]: false as soon as an operand is [NaN]. *)
Definition gt (n : option Z) (m : Z) : bool :=
  match n with Some a => m <? a | None => false end.

(** [Math.ceil(n / m)] as it is serialised in a JSON body: [None] is the
    [null] that [NaN] and the infinities of a division by zero become.  The
    ceiling is taken of the exact quotient.  The engine takes it of the
    quotient rounded to a double; the two agree when [n] is a safe integer,
    not negative, and [m] an integer from 1 to 100: a quotient that is not
    an integer then lies at least [1/m] above the integer below it, and the
    doubles around it are less than [2/m] apart, so it is not rounded down
    to that integer. *)
Definition Math_ceil_div (n : Z) (m : option Z) : option Z :=
  match m with
  | Some 0 => None
  | Some d => Some (- ((- n) / d))
  | None => None
  end.

(** *** Number.prototype.toString *)

(** The decimal digits of an integer.  This is the text the engine gives
    for a safe integer; from 2^53 on it writes the shortest digits that read
    back and, from 10^21 on, an exponent. *)
Definition Number_toString (n : Z) : string :=
  NilZero.string_of_int (Z.to_int n).

(** The text of a payload number. *)
Definition number_toString (n : number) : string :=
  match n with
  | Int z => Number_toString z
  | Infinity => "Infinity"
  | NegInfinity => "-Infinity"
  end.

(** [limit.toString()] where [limit] may be [NaN]. *)
Definition toString (n : option Z) : string :=
  match n with Some z => Number_toString z | None => "NaN" end.

(** *** encodeURIComponent *)

(** No lone surrogate: no byte ED followed by a byte from A0 to BF. *)
Fixpoint wellFormed (s : string) : bool :=
  match s with
  | EmptyString => true
  | String c s' =>
    match s' with
    | EmptyString => true
    | String c1 _ =>
      negb ((code c =? 237) && (160 <=? code c1) && (code c1 <=? 191))
      && wellFormed s'
    end
  end.

Definition hexDigit (n : Z) : ascii :=
  ascii_of_N (Z.to_N (if n <? 10 then 48 + n else 55 + n)).

(** Unreserved: letters, digits and [- _ . ! ~ * ' ( )]. *)
Definition unreserved (c : ascii) : bool :=
  let n := code c in
  (48 <=? n) && (n <=? 57) || (65 <=? n) && (n <=? 90)
  || (97 <=? n) && (n <=? 122)
  || (n =? 45) || (n =? 95) || (n =? 46) || (n =? 33) || (n =? 126)
  || (n =? 42) || (n =? 39) || (n =? 40) || (n =? 41).

(** The encoding of a well-formed string.  On a string with a lone surrogate
    the built-in raises [URIError] instead: see [encodeURIComponent_raises]. *)
Fixpoint encodeURIComponent (s : string) : string :=
  match s with
  | EmptyString => EmptyString
  | String c s' =>
    if unreserved c then String c (encodeURIComponent s')
    else String "%" (String (hexDigit (code c / 16))
                       (String (hexDigit (code c mod 16))
                          (encodeURIComponent s')))
  end.

(** [encodeURIComponent(x)] applies [ToString] first: [undefined] becomes
    the nine letters of its name. *)
Definition encodeURIComponent_any (x : option string) : string :=
  encodeURIComponent (match x with Some s => s | None => "undefined" end).

(** [encodeURIComponent(x)] raises [URIError]. *)
Definition encodeURIComponent_raises (x : option string) : bool :=
  negb (wellFormed (match x with Some s => s | None => "undefined" end)).

(** *** Headers.prototype.set *)

(** The value is accepted by [headers.set]: every code unit is at most 255
    (in UTF-8, no byte from C4 on) and none is NUL, LF or CR.  The values the
    route sets neither start nor end with white space, so the trimming that
    comes first changes nothing.  [headers.set] raises [TypeError] on any
    other value. *)
Fixpoint isHeaderValue (s : string) : bool :=
  match s with
  | EmptyString => true
  | String c s' =>
    negb ((code c =? 0) || (code c =? 10) || (code c =? 13) || (196 <=? code c))
    && isHeaderValue s'
  end.

(** *** Array.prototype.find, filter and sort *)

(** [Array.prototype.sort(cmp)] is stable (ECMAScript 2019 on): an element
    goes in front of the first later element it does not follow.  With a
    consistent comparator every stable sort returns this list. *)
Fixpoint insert {A : Type} (cmp : A -> A -> Z) (x : A) (l : list A) : list A :=
  match l with
  | [] => [x]
  | y :: l' => if cmp x y <=? 0 then x :: l else y :: insert cmp x l'
  end.

Definition sort {A : Type} (cmp : A -> A -> Z) (l : list A) : list A :=
  fold_right (insert cmp) [] l.

(** [.filter(item => item !== null)] after a [.map] that returns an item
    or [null]. *)
Fixpoint compact {A : Type} (l : list (option A)) : list A :=
  match l with
  | [] => []
  | Some x :: l' => x :: compact l'
  | None :: l' => compact l'
  end.

(** [Array.prototype.map] with a callback that may raise: the first error
    ends the loop and is the error of the whole [map]. *)
Fixpoint mapM {A B : Type} (f : A -> string + B) (l : list A) : string + list B :=
  match l with
  | [] => inr []
  | a :: l' =>
    match f a with
    | inl e => inl e
    | inr b =>
      match mapM f l' with
      | inl e => inl e
      | inr bs => inr (b :: bs)
      end
    end
  end.

(** [desc.classid === asset.classid] on optional strings: two missing
    properties are both [undefined] and so strictly equal. *)
Definition strictEq (a b : option string) : bool :=
  match a, b with
  | Some x, Some y => String.eqb x y
  | None, None => true
  | _, _ => false
  end.

(** *** URL and URLSearchParams *)

(** The route only builds URLs under one fixed origin, so a URL is what
    follows the host: the path, the list behind [searchParams], and the
    fragment.  The path is kept as it is written; the parser would also
    remove dot segments, turn backslashes into slashes and percent-encode
    some characters, so [pathname] is the path of the real URL only for text
    made of letters, digits, hyphens, underscores and slashes.  The list and
    the fragment do not depend on that. *)
Record URL : Type := mkURL
  { pathname : string;
    searchParams : list (string * string);
    hash : option string }.

(** The URL parser first drops TAB, LF and CR from its input. *)
Fixpoint removeTabNewline (s : string) : string :=
  match s with
  | EmptyString => EmptyString
  | String c s' =>
    if (code c =? 9) || (code c =? 10) || (code c =? 13)
    then removeTabNewline s'
    else String c (removeTabNewline s')
  end.

(** Cut at the first occurrence of [sep]; [None] when there is none. *)
Fixpoint cut (sep : ascii) (s : string) : string * option string :=
  match s with
  | EmptyString => (EmptyString, None)
  | String c s' =>
    if Ascii.eqb c sep then (EmptyString, Some s')
    else let (a, b) := cut sep s' in (String c a, b)
  end.

Fixpoint splitOn (sep : ascii) (s : string) : list string :=
  match s with
  | EmptyString => [EmptyString]
  | String c s' =>
    if Ascii.eqb c sep then EmptyString :: splitOn sep s'
    else match splitOn sep s' with
         | h :: t => String c h :: t
         | [] => [String c EmptyString]
         end
  end.

Definition hexValue (c : ascii) : option Z :=
  match digitValue c with
  | Some d => if d <? 16 then Some d else None
  | None => None
  end.

Definition byte (n : Z) : ascii := ascii_of_N (Z.to_N n).

Fixpoint percentDecode (s : string) : string :=
  match s with
  | EmptyString => EmptyString
  | String c s1 =>
    if code c =? 37 then
      match s1 with
      | String h1 (String h2 s3) =>
        match hexValue h1, hexValue h2 with
        | Some a, Some b => String (byte (16 * a + b)) (percentDecode s3)
        | _, _ => String c (percentDecode s1)
        end
      | _ => String c (percentDecode s1)
      end
    else String c (percentDecode s1)
  end.

Fixpoint plusToSpace (s : string) : string :=
  match s with
  | EmptyString => EmptyString
  | String c s' =>
    String (if code c =? 43 then " "%char else c) (plusToSpace s')
  end.

Definition formDecode (s : string) : string := percentDecode (plusToSpace s).

(** The [application/x-www-form-urlencoded] parser. *)
Fixpoint parsePairs (l : list string) : list (string * string) :=
  match l with
  | [] => []
  | EmptyString :: l' => parsePairs l'
  | s :: l' =>
    let (n, v) := cut "=" s in
    (formDecode n,
     formDecode (match v with Some v' => v' | None => EmptyString end))
    :: parsePairs l'
  end.

Definition parseQuery (q : string) : list (string * string) :=
  parsePairs (splitOn "&" q).

(** [new URL(origin + rest)] for a [rest] that starts the path: in the path
    state the first [#] opens the fragment and a [?] before it the query. *)
Definition new_URL (rest : string) : URL :=
  let (beforeHash, fragment) := cut "#" (removeTabNewline rest) in
  let (path, query) := cut "?" beforeHash in
  mkURL path
        (match query with Some q => parseQuery q | None => [] end)
        fragment.

(** [url.searchParams.append(name, value)]. *)
Definition append (u : URL) (name value : string) : URL :=
  mkURL (pathname u) (searchParams u ++ [(name, value)]) (hash u).

(** [searchParams.get(name)]: the first value under that name. *)
Fixpoint get (params : list (string * string)) (name : string) : option string :=
  match params with
  | [] => None
  | (n, v) :: params' => if String.eqb n name then Some v else get params' name
  end.

(** [searchParams.has(name)]. *)
Definition has (params : list (string * string)) (name : string) : bool :=
  isSome (get params name).

End JS.

(** ** Data model *)

Record DescriptionLine : Type :=
  { line_type : string; line_value : string; line_color : option string }.

Record Action : Type :=
  { action_name : string; action_link : string }.

Record Tag : Type :=
  { category : string;
    internal_name : string;
    localized_category_name : string;
    localized_tag_name : string;
    tag_color : option string }.

(** [SteamAsset], every property optional: nothing in the upstream payload
    is checked before the merge. *)
Record SteamAsset : Type :=
  { asset_appid : option Z;
    asset_contextid : option string;
    asset_assetid : option string;
    asset_classid : option string;
    asset_instanceid : option string;
    asset_amount : option string }.

(** [SteamDescription], every property optional. *)
Record SteamDescription : Type :=
  { desc_appid : option JS.number;
    desc_classid : option string;
    desc_instanceid : option string;
    desc_name : option string;
    desc_market_hash_name : option string;
    desc_market_name : option string;
    desc_type : option string;
    desc_tradable : option Z;
    desc_marketable : option Z;
    desc_commodity : option Z;
    desc_market_tradable_restriction : option Z;
    desc_descriptions : option (list DescriptionLine);
    desc_actions : option (list Action);
    desc_name_color : option string;
    desc_background_color : option string;
    desc_icon_url : option string;
    desc_icon_url_large : option string;
    desc_tags : option (list Tag) }.

(** Modelled from the spec: the type [SteamInventoryItem] of [~/types/steam]
    is not among the sources.  Its properties are those of the spec's
    DomainItem, under the names the guard and the merge use; all are
    optional, as in the [Partial<SteamInventoryItem>] the merge builds and
    the guard inspects. *)
Record Item : Type :=
  { appid : option JS.number;
    contextid : option string;
    assetid : option string;
    classid : option string;
    instanceid : option string;
    amount : option string;
    name : option string;
    market_hash_name : option string;
    market_name : option string;
    type : option string;
    tradable : option Z;
    marketable : option Z;
    commodity : option Z;
    market_tradable_restriction : option Z;
    descriptions : option (list DescriptionLine);
    actions : option (list Action);
    name_color : option string;
    background_color : option string;
    icon_url : option string;
    icon_url_large : option string;
    tags : option (list Tag) }.

(** The parsed body of the upstream response. *)
Record InventoryData : Type :=
  { inv_error : option string;
    inv_assets : option (list SteamAsset);
    inv_descriptions : option (list SteamDescription);
    total_inventory_count : option Z;
    more_items : JS.maybe bool;
    last_assetid : JS.maybe string }.

(** ** Requests, responses and the host *)

(** The inbound request: its cookies and its query string, both as the
    ordered name/value lists [get] reads. *)
Record Request : Type :=
  { cookies : list (string * string);
    query : list (string * string) }.

(** One outbound [fetch]: the URL, the [Cookie] header and the cache
    options of [next]. *)
Record Outbound : Type :=
  { url : JS.URL;
    cookie_header : string;
    revalidate : Z;
    cache_tags : list string }.

(** What the handler reads of the upstream response: [ok], [status], the
    result of [text()] and the result of [json()], whose [inl] is the
    message of the error raised for a body that is not JSON (or that is
    [null], on which the first property access raises). *)
Record FetchResponse : Type :=
  { ok : bool;
    fetch_status : Z;
    text : string;
    json : string + InventoryData }.

(** The success payload of [NextResponse.json]. *)
Record Envelope : Type :=
  { success : bool;
    items : list Item;
    total_count : Z;
    page : option Z;
    limit : option Z;
    total_pages : option Z;
    has_more : JS.maybe bool;
    next_start_asset_id : JS.maybe string;
    app_id : string;
    context_id : string }.

(** The payload of the [catch] block; [details] is [None] when the property
    is [undefined], which JSON serialisation leaves out. *)
Record Failure : Type :=
  { failure_success : bool;
    failure_error : string;
    failure_details : option string;
    failure_items : list Item;
    failure_total_count : Z }.

Inductive Body : Type :=
| ErrorBody (error : string)
| FailureBody (f : Failure)
| SuccessBody (e : Envelope).

(** A [NextResponse]: status, payload and the headers the handler sets. *)
Record HttpResponse : Type :=
  { status : Z;
    body : Body;
    headers : list (string * string) }.

(** Everything the handler takes from outside its own file: the session
    helpers, the configuration, the collation behind [localeCompare], the
    network and the wording of the engine's errors.  [JSON_parse] and
    [fetch] answer [inl message] when they raise. *)
Record Host : Type :=
  { SessionData : Type;
    JSON_parse : string -> string + SessionData;
    validateSteamSession : SessionData -> bool;
    session_steamid : SessionData -> option string;
    localeCompare : string -> string -> Z;
    isDev : bool;
    communityToken : string;
    fetch : Outbound -> string + FetchResponse;
    URIError_message : string;
    TypeError_message : string -> string }.

(** ** The handler monad: a log of outbound calls, exceptions and early
    returns *)

Inductive Outcome (A : Type) : Type :=
| Value (a : A)
| Returned (r : HttpResponse)
| Thrown (message : string).
Arguments Returned {A} r.
Arguments Thrown {A} message.

Definition M (A : Type) : Type := list Outbound -> Outcome A * list Outbound.

Definition ret {A : Type} (a : A) : M A := fun log => (Value a, log).

Definition bind {A B : Type} (m : M A) (k : A -> M B) : M B :=
  fun log =>
    match m log with
    | (Value a, log') => k a log'
    | (Returned r, log') => (Returned r, log')
    | (Thrown e, log') => (Thrown e, log')
    end.

(** [return response] from inside the [try] block. *)
Definition return_ {A : Type} (r : HttpResponse) : M A :=
  fun log => (Returned r, log).

(** [throw new Error(message)]. *)
Definition throw {A : Type} (message : string) : M A :=
  fun log => (Thrown message, log).

(** A call that may raise. *)
Definition lift {A : Type} (x : string + A) : M A :=
  match x with inl e => throw e | inr a => ret a end.

(** [await fetch(...)]: the call is logged whether or not it succeeds. *)
Definition await_fetch (h : Host) (call : Outbound) : M FetchResponse :=
  fun log =>
    match fetch h call with
    | inl e => (Thrown e, log ++ [call])
    | inr r => (Value r, log ++ [call])
    end.

Notation "x <- m ;; k" := (bind m (fun x => k))
  (at level 61, m at next level, right associativity).

(** [NextResponse.json(body, { status })]. *)
Definition NextResponse_json (b : Body) (st : Z) : HttpResponse :=
  {| status := st; body := b; headers := [] |}.

(** [response.headers.set(name, value)]. *)
Fixpoint setHeader (hs : list (string * string)) (n v : string)
  : list (string * string) :=
  match hs with
  | [] => [(n, v)]
  | (n', v') :: hs' =>
    if String.eqb n' n then (n, v) :: hs' else (n', v') :: setHeader hs' n v
  end.

Definition headers_set (r : HttpResponse) (n v : string) : HttpResponse :=
  {| status := status r; body := body r; headers := setHeader (headers r) n v |}.

(** ** The route *)

(** Type guard: every required property of the merged object. *)
Definition isValidInventoryItem (item : Item) : bool :=
  JS.truthyNumber (appid item) &&
  JS.truthy (contextid item) &&
  JS.truthy (assetid item) &&
  JS.truthy (classid item) &&
  JS.truthy (instanceid item) &&
  JS.truthy (amount item) &&
  JS.truthy (name item) &&
  JS.truthy (market_hash_name item) &&
  JS.truthy (market_name item) &&
  JS.truthy (type item) &&
  JS.isSome (tradable item) &&
  JS.isSome (marketable item) &&
  JS.isSome (commodity item) &&
  JS.isSome (market_tradable_restriction item) &&
  JS.isSome (descriptions item) &&
  JS.isSome (tags item) &&
  JS.truthy (icon_url item).

(** Context id for an app id: Steam Community items use context 6, game
    items context 2. *)
Definition getContextId (appId : option string) : string :=
  if negb (JS.truthy appId) || JS.strictEq appId (Some "753") then "6"
  else "2".

(** App id for the inventory query. *)
Definition getInventoryAppId (appId : option string) : string :=
  match appId with
  | None => "753"
  | Some a =>
    if negb (JS.truthy appId) then "753"
    else if String.eqb a "730" || String.eqb a "570" || String.eqb a "440"
    then a
    else if JS.isNaN (JS.parseInt a) then "753"
    else a
  end.

(** [desc.classid === asset.classid && desc.instanceid === asset.instanceid]. *)
Definition matches (asset : SteamAsset) (desc : SteamDescription) : bool :=
  JS.strictEq (desc_classid desc) (asset_classid asset) &&
  JS.strictEq (desc_instanceid desc) (asset_instanceid asset).

(** The object literal of the merge: the description spread first, then the
    four properties written over it.  This is the object when
    [encodeURIComponent] does not raise; [mergeRaises] tells when it does. *)
Definition merge (asset : SteamAsset) (description : SteamDescription) : Item :=
  {| appid := desc_appid description;
     contextid := asset_contextid asset;
     assetid := asset_assetid asset;
     classid := desc_classid description;
     instanceid := desc_instanceid description;
     amount := asset_amount asset;
     name := desc_name description;
     market_hash_name :=
       Some (JS.encodeURIComponent_any (desc_market_hash_name description));
     market_name := desc_market_name description;
     type := desc_type description;
     tradable := desc_tradable description;
     marketable := desc_marketable description;
     commodity := desc_commodity description;
     market_tradable_restriction := desc_market_tradable_restriction description;
     descriptions := desc_descriptions description;
     actions := desc_actions description;
     name_color := desc_name_color description;
     background_color := desc_background_color description;
     icon_url := desc_icon_url description;
     icon_url_large := desc_icon_url_large description;
     tags := desc_tags description |}.

(** The value of the callback of [assets.map] when it returns: the merged
    item, or [null]. *)
Definition mergeAsset (descs : list SteamDescription) (asset : SteamAsset)
  : option Item :=
  match find (matches asset) descs with
  | None => None
  | Some description =>
    let item := merge asset description in
    if isValidInventoryItem item then Some item else None
  end.

(** The callback of [assets.map] raises: the asset has a matching
    description and [encodeURIComponent] raises on its market name. *)
Definition mergeRaises (descs : list SteamDescription) (asset : SteamAsset)
  : bool :=
  match find (matches asset) descs with
  | None => false
  | Some description =>
    JS.encodeURIComponent_raises (desc_market_hash_name description)
  end.

(** Merge assets with descriptions: the value of the [map] and [filter]
    when no callback raises. *)
Definition reconcile (assets : list SteamAsset) (descs : list SteamDescription)
  : list Item :=
  JS.compact (map (mergeAsset descs) assets).

(** The callback of [assets.map] as it runs: without a matching description
    [null]; with one, [encodeURIComponent] raises [URIError] on a market name
    that holds a lone surrogate, and otherwise the merged object is returned
    if it passes the guard and [null] if not. *)
Definition mergeCallback (URIError : string) (descs : list SteamDescription)
    (asset : SteamAsset) : string + option Item :=
  match find (matches asset) descs with
  | None => inr None
  | Some description =>
    if JS.encodeURIComponent_raises (desc_market_hash_name description)
    then inl URIError
    else
      let item := merge asset description in
      inr (if isValidInventoryItem item then Some item else None)
  end.

(** [assets.map(...).filter(item => item !== null)] as it runs. *)
Definition mergeItems (URIError : string) (assets : list SteamAsset)
    (descs : list SteamDescription) : string + list Item :=
  match JS.mapM (mergeCallback URIError descs) assets with
  | inl e => inl e
  | inr l => inr (JS.compact l)
  end.

(** The string behind an optional property that the guard has checked. *)
Definition str (s : option string) : string :=
  match s with Some x => x | None => EmptyString end.

(** [item.appid.toString() === appId].  Items reaching the filter passed the
    guard, so their [appid] is a number. *)
Definition appidIs (appId : string) (item : Item) : bool :=
  match appid item with
  | Some n => String.eqb (JS.number_toString n) appId
  | None => false
  end.

(** Filter by appId if provided. *)
Definition filterByAppId (appId : option string) (l : list Item) : list Item :=
  if JS.truthy appId then filter (appidIs (str appId)) l else l.

(** The comparator of the sort: by rarity ([name_color]), then by name. *)
Definition compareItems (lc : string -> string -> Z) (a b : Item) : Z :=
  if JS.truthy (name_color a) && JS.truthy (name_color b)
  then lc (str (name_color b)) (str (name_color a))
  else if JS.truthy (name_color a) then -1
  else if JS.truthy (name_color b) then 1
  else lc (str (name a)) (str (name b)).

(** The inventory URL with its [l], [count] and, past the first page,
    [start_assetid] parameters. *)
Definition inventoryUrl (steamId inventoryAppId contextId : string)
    (page limit : option Z) (startAssetId : option string) : JS.URL :=
  let u0 := JS.new_URL ("/inventory/" ++ steamId ++ "/" ++ inventoryAppId
                          ++ "/" ++ contextId)%string in
  let u1 := JS.append u0 "l" "english" in
  let u2 := JS.append u1 "count" (JS.toString limit) in
  if JS.gt page 1 then
    if JS.truthy startAssetId
    then JS.append u2 "start_assetid" (str startAssetId)
    else u2
  else u2.

(** The [x-cache-tags] value. *)
Definition cacheTags (steamId : string) (appId : option string) : string :=
  ("user-" ++ steamId ++ "-inventory"
     ++ (if JS.truthy appId then ",app-" ++ str appId ++ "-inventory"
         else ""))%string.

(** [a || "d"] with a literal default. *)
Definition orDefault (a : option string) (d : string) : string :=
  if JS.truthy a then str a else d.

(** [n || 0]. *)
Definition orZero (n : option Z) : Z :=
  match n with Some z => z | None => 0 end.

(** [a || []]. *)
Definition orEmpty {A : Type} (a : option (list A)) : list A :=
  match a with Some l => l | None => [] end.

(** The [try] block of [GET]. *)
Definition GET_try (h : Host) (request : Request) : M HttpResponse :=
  let sessionCookie := JS.get (cookies request) "steam_session" in
  if negb (JS.truthy sessionCookie) then
    return_ (NextResponse_json (ErrorBody "Unauthorized") 401)
  else
  userData <- lift (JSON_parse h (str sessionCookie)) ;;
  if negb (validateSteamSession h userData) then
    return_ (NextResponse_json (ErrorBody "Invalid session") 401)
  else
  let searchParams := query request in
  let steamId := JS.orElse (JS.get searchParams "steamid")
                           (session_steamid h userData) in
  let page := JS.parseInt (orDefault (JS.get searchParams "page") "1") in
  let limit :=
    JS.Math_min (JS.parseInt (orDefault (JS.get searchParams "limit") "100"))
                (Some 100) in
  let appId := JS.get searchParams "appid" in
  if negb (JS.truthy steamId) then
    return_ (NextResponse_json (ErrorBody "Steam ID required") 400)
  else
  let inventoryAppId := getInventoryAppId appId in
  let contextId := getContextId appId in
  let inventoryUrl :=
    inventoryUrl (str steamId) inventoryAppId contextId page limit
                 (JS.get searchParams "start_assetid") in
  inventoryResponse <-
    await_fetch h
      {| url := inventoryUrl;
         cookie_header := ("steamLoginSecure=" ++ communityToken h)%string;
         revalidate := 300;
         cache_tags := [("user-" ++ str steamId ++ "-inventory")%string] |} ;;
  if negb (ok inventoryResponse) then
    throw ("Failed to fetch inventory: "
             ++ JS.Number_toString (fetch_status inventoryResponse)
             ++ " - " ++ text inventoryResponse)%string
  else
  inventoryData <- lift (json inventoryResponse) ;;
  if JS.truthy (inv_error inventoryData) then
    throw ("Steam API error: " ++ str (inv_error inventoryData))%string
  else
  let assets := orEmpty (inv_assets inventoryData) in
  let descriptions := orEmpty (inv_descriptions inventoryData) in
  let total := orZero (total_inventory_count inventoryData) in
  items <- lift (mergeItems (URIError_message h) assets descriptions) ;;
  let filteredItems := filterByAppId appId items in
  let sortedItems := JS.sort (compareItems (localeCompare h)) filteredItems in
  let totalPages := JS.Math_ceil_div total limit in
  let hasMore := more_items inventoryData in
  let nextStartAssetId := last_assetid inventoryData in
  let response :=
    NextResponse_json
      (SuccessBody
         {| success := true;
            items := sortedItems;
            total_count := total;
            page := page;
            limit := limit;
            total_pages := totalPages;
            has_more := hasMore;
            next_start_asset_id := nextStartAssetId;
            app_id := inventoryAppId;
            context_id := contextId |}) 200 in
  let response :=
    headers_set response "Cache-Control" "s-maxage=300, stale-while-revalidate" in
  if negb (JS.isHeaderValue (cacheTags (str steamId) appId)) then
    throw (TypeError_message h (cacheTags (str steamId) appId))
  else
  let response :=
    headers_set response "x-cache-tags" (cacheTags (str steamId) appId) in
  ret response.

(** The [catch] block: the uniform failure response. *)
Definition errorResponse (h : Host) (message : string) : HttpResponse :=
  headers_set
    (NextResponse_json
       (FailureBody
          {| failure_success := false;
             failure_error := "Failed to fetch inventory";
             failure_details := if isDev h then Some message else None;
             failure_items := [];
             failure_total_count := 0 |}) 500)
    "Cache-Control" "no-store".

(** [GET]: the response and the outbound calls made on the way. *)
Definition GET (h : Host) (request : Request) : HttpResponse * list Outbound :=
  match GET_try h request [] with
  | (Value r, log) => (r, log)
  | (Returned r, log) => (r, log)
  | (Thrown message, log) => (errorResponse h message, log)
  end.

(** The [items] property of a payload; the bare [{ error }] payloads have
    none. *)
Definition body_items (b : Body) : option (list Item) :=
  match b with
  | ErrorBody _ => None
  | FailureBody f => Some (failure_items f)
  | SuccessBody e => Some (items e)
  end.

(** The item list a response carries: empty when the payload has none. *)
Definition responseItems (r : HttpResponse) : list Item :=
  match body_items (body r) with Some l => l | None => [] end.

(** ** Vocabulary of the statements *)

(** A comparator an engine can sort with: reversing the arguments reverses
    the sign, and "not after" is transitive. *)
Class Consistent {A : Type} (cmp : A -> A -> Z) : Prop :=
  { cmp_antisym : forall x y, Z.sgn (cmp y x) = - Z.sgn (cmp x y);
    cmp_trans : forall x y z, cmp x y <= 0 -> cmp y z <= 0 -> cmp x z <= 0 }.

(** Lexicographic comparison of the bytes, with the sign as its result. *)
Definition lexCompare (s t : string) : Z :=
  match String.compare s t with
  | Lt => -1
  | Eq => 0
  | Gt => 1
  end.

(** An item carries a rarity color. *)
Definition hasColor (item : Item) : bool := JS.truthy (name_color item).

(** Adjacent elements are in comparator order. *)
Definition sorted {A : Type} (cmp : A -> A -> Z) (l : list A) : Prop :=
  Sorted (fun a b => cmp a b <= 0) l.

(** [x] and [y] are ranked equal. *)
Definition tie {A : Type} (cmp : A -> A -> Z) (x y : A) : bool :=
  cmp x y =? 0.

(** A present, non-empty string property. *)
Definition nonEmpty (s : option string) : Prop :=
  exists x, s = Some x /\ x <> EmptyString.

(** A present number property. *)
Definition isNumber (n : option Z) : Prop := exists z, n = Some z.

(** A present array property. *)
Definition isArray {A : Type} (a : option (list A)) : Prop := exists l, a = Some l.

(** Every required field of an item, one by one. *)
Definition requiredFields (item : Item) : Prop :=
  (exists n, appid item = Some n /\ n <> JS.Int 0) /\
  nonEmpty (contextid item) /\
  nonEmpty (assetid item) /\
  nonEmpty (classid item) /\
  nonEmpty (instanceid item) /\
  nonEmpty (amount item) /\
  nonEmpty (name item) /\
  nonEmpty (market_hash_name item) /\
  nonEmpty (market_name item) /\
  nonEmpty (type item) /\
  nonEmpty (icon_url item) /\
  isNumber (tradable item) /\
  isNumber (marketable item) /\
  isNumber (commodity item) /\
  isNumber (market_tradable_restriction item) /\
  isArray (descriptions item) /\
  isArray (tags item).

(** [item] is the merge of an asset of the page with its first matching
    description. *)
Definition mergedFrom (assets : list SteamAsset) (descs : list SteamDescription)
    (item : Item) : Prop :=
  exists asset description,
    In asset assets /\
    find (matches asset) descs = Some description /\
    item = merge asset description.

(** The parameters the handler reads from the request. *)
Definition req_cookie (request : Request) : option string :=
  JS.get (cookies request) "steam_session".

Definition req_steamId (h : Host) (userData : SessionData h) (request : Request)
  : option string :=
  JS.orElse (JS.get (query request) "steamid") (session_steamid h userData).

Definition req_page (request : Request) : option Z :=
  JS.parseInt (orDefault (JS.get (query request) "page") "1").

Definition req_limit (request : Request) : option Z :=
  JS.Math_min (JS.parseInt (orDefault (JS.get (query request) "limit") "100"))
              (Some 100).

Definition req_appId (request : Request) : option string :=
  JS.get (query request) "appid".

Definition req_cursor (request : Request) : option string :=
  JS.get (query request) "start_assetid".

(** The outbound call of an authenticated request. *)
Definition requestCall (h : Host) (userData : SessionData h) (request : Request)
  : Outbound :=
  {| url := inventoryUrl (str (req_steamId h userData request))
                         (getInventoryAppId (req_appId request))
                         (getContextId (req_appId request))
                         (req_page request) (req_limit request)
                         (req_cursor request);
     cookie_header := ("steamLoginSecure=" ++ communityToken h)%string;
     revalidate := 300;
     cache_tags :=
       [("user-" ++ str (req_steamId h userData request) ++ "-inventory")%string] |}.

(** The session cookie is there, parses, and the session is valid. *)
Definition authenticated (h : Host) (request : Request) (userData : SessionData h)
  : Prop :=
  JS.truthy (req_cookie request) = true /\
  JSON_parse h (str (req_cookie request)) = inr userData /\
  validateSteamSession h userData = true.

(** An authenticated request with a user id, to which the upstream service
    answers 2xx with the parsed body [data]. *)
Definition answers (h : Host) (request : Request) (data : InventoryData) : Prop :=
  exists userData inventoryResponse,
    authenticated h request userData /\
    JS.truthy (req_steamId h userData request) = true /\
    fetch h (requestCall h userData request) = inr inventoryResponse /\
    ok inventoryResponse = true /\
    json inventoryResponse = inr data.

(** No callback of the merge raises on this page. *)
Definition mergeCompletes (data : InventoryData) : bool :=
  negb (existsb (mergeRaises (orEmpty (inv_descriptions data)))
                (orEmpty (inv_assets data))).

(** The cache tags of the request are accepted as a header value. *)
Definition tagsAccepted (h : Host) (request : Request) : bool :=
  match JSON_parse h (str (req_cookie request)) with
  | inl _ => false
  | inr userData =>
    JS.isHeaderValue
      (cacheTags (str (req_steamId h userData request)) (req_appId request))
  end.

(** ... and that body reports no error, the merge of the page completes and
    the cache tags can be set: the page is delivered to the caller. *)
Definition delivers (h : Host) (request : Request) (data : InventoryData) : Prop :=
  answers h request data /\
  JS.truthy (inv_error data) = false /\
  mergeCompletes data = true /\
  tagsAccepted h request = true.

(** Every appid of the page is a safe integer or an infinity. *)
Definition exactAppids (data : InventoryData) : Prop :=
  forall d n, In d (orEmpty (inv_descriptions data)) ->
              desc_appid d = Some n -> JS.hasExactText n = true.

(** Every appid of the page is a safe integer. *)
Definition safeAppids (data : InventoryData) : Prop :=
  forall d n, In d (orEmpty (inv_descriptions data)) ->
              desc_appid d = Some n -> JS.isSafeInteger n = true.

(** The list the handler puts in the response for a raw page. *)
Definition pageItems (h : Host) (request : Request) (data : InventoryData)
  : list Item :=
  JS.sort (compareItems (localeCompare h))
    (filterByAppId (req_appId request)
       (reconcile (orEmpty (inv_assets data)) (orEmpty (inv_descriptions data)))).

(** The envelope of a raw page. *)
Definition pageEnvelope (h : Host) (request : Request) (data : InventoryData)
  : Envelope :=
  {| success := true;
     items := pageItems h request data;
     total_count := orZero (total_inventory_count data);
     page := req_page request;
     limit := req_limit request;
     total_pages :=
       JS.Math_ceil_div (orZero (total_inventory_count data)) (req_limit request);
     has_more := more_items data;
     next_start_asset_id := last_assetid data;
     app_id := getInventoryAppId (req_appId request);
     context_id := getContextId (req_appId request) |}.

(** The success response of a raw page. *)
Definition pageResponse (h : Host) (userData : SessionData h)
    (request : Request) (data : InventoryData) : HttpResponse :=
  headers_set
    (headers_set
       (NextResponse_json (SuccessBody (pageEnvelope h request data)) 200)
       "Cache-Control" "s-maxage=300, stale-while-revalidate")
    "x-cache-tags"
    (cacheTags (str (req_steamId h userData request)) (req_appId request)).

(** The item passes the collection filter of the request. *)
Definition passesFilter (request : Request) (item : Item) : Prop :=
  JS.truthy (req_appId request) = false \/
  exists n, appid item = Some n /\
            JS.number_toString n = str (req_appId request).

(** The URL carries a start marker. *)
Definition hasStartMarker (u : JS.URL) : bool :=
  JS.has (JS.searchParams u) "start_assetid".

(** [c] occurs in [s]. *)
Fixpoint occurs (c : ascii) (s : string) : bool :=
  match s with
  | EmptyString => false
  | String c' s' => Ascii.eqb c' c || occurs c s'
  end.

(** A decimal digit, and a string of decimal digits. *)
Definition isDigit (c : ascii) : bool :=
  (48 <=? JS.code c) && (JS.code c <=? 57).

Fixpoint allDigits (s : string) : bool :=
  match s with
  | EmptyString => true
  | String c s' => isDigit c && allDigits s'
  end.


(** A letter, a digit, a hyphen or an underscore. *)
Definition isSegmentChar (c : ascii) : bool :=
  let n := JS.code c in
  (48 <=? n) && (n <=? 57) || (65 <=? n) && (n <=? 90)
  || (97 <=? n) && (n <=? 122) || (n =? 45) || (n =? 95).

(** Text that the URL parser keeps as it is inside a path: letters, digits,
    hyphens and underscores only. *)
Fixpoint segment (s : string) : bool :=
  match s with
  | EmptyString => true
  | String c s' => isSegmentChar c && segment s'
  end.

(** An upper-case ASCII letter, and its lower-case form. *)
Definition isUpper (c : ascii) : bool :=
  (65 <=? JS.code c) && (JS.code c <=? 90).

Definition toLower (c : ascii) : ascii :=
  if isUpper c then ascii_of_N (Z.to_N (JS.code c + 32)) else c.

(** The string in lower case. *)
Fixpoint foldCase (s : string) : string :=
  match s with
  | EmptyString => EmptyString
  | String c s' => String (toLower c) (foldCase s')
  end.

(** The case of each character: 0 for lower case, 1 for upper case. *)
Fixpoint caseKey (s : string) : string :=
  match s with
  | EmptyString => EmptyString
  | String c s' => String (if isUpper c then "1"%char else "0"%char) (caseKey s')
  end.

(** The default collation of [localeCompare] in an English locale, on
    strings of ASCII letters and digits: digits before letters and letters
    in alphabetical order whatever their case; between strings equal up to
    case, lower case first at the first difference. *)
Definition localeCollate (s t : string) : Z :=
  match String.compare (foldCase s) (foldCase t) with
  | Lt => -1
  | Gt => 1
  | Eq => lexCompare (caseKey s) (caseKey t)
  end.

(** An item carries no rarity color. *)
Definition noColor (item : Item) : bool := negb (hasColor item).

(** The asset survives the merge. *)
Definition kept (descs : list SteamDescription) (asset : SteamAsset) : bool :=
  JS.isSome (mergeAsset descs asset).

(** A string without the characters that delimit or vanish from a URL: no
    question mark, no hash sign, no TAB, LF or CR. *)
Definition plain (s : string) : bool :=
  negb (occurs "?" s) && negb (occurs "#" s)
  && negb (occurs (ascii_of_N 9) s) && negb (occurs (ascii_of_N 10) s)
  && negb (occurs (ascii_of_N 13) s).


(** The tag that scopes cache entries to a user. *)
Definition userTag (steamId : string) : string :=
  ("user-" ++ steamId ++ "-inventory")%string.

(** ** Sample data for the examples *)

Module Sample.

(** The double quote character. *)
Definition dq : string := String (ascii_of_N 34) EmptyString.

(** A session as the login route stores it. *)
Record Session : Type := { steamid : option string }.

(** The text of a session cookie for a user id. *)
Definition sessionText (id : string) : string :=
  ("{" ++ dq ++ "steamid" ++ dq ++ ":" ++ dq ++ id ++ dq ++ "}")%string.

Fixpoint stripPrefix (p s : string) : option string :=
  match p, s with
  | EmptyString, _ => Some s
  | String a p', String b s' => if Ascii.eqb a b then stripPrefix p' s' else None
  | String _ _, EmptyString => None
  end.

(** A [JSON.parse] for the examples: it reads the texts [sessionText]
    writes (a user id without quotes or escapes) and raises on every other
    text used below, none of which is JSON. *)
Definition parseSession (s : string) : string + Session :=
  match stripPrefix ("{" ++ dq ++ "steamid" ++ dq ++ ":" ++ dq)%string s with
  | Some rest =>
    match JS.cut (ascii_of_N 34) rest with
    | (id, Some "}"%string) => inr {| steamid := Some id |}
    | _ => inl "Unexpected end of JSON input"%string
    end
  | None => inl "Unexpected token in JSON"%string
  end.

(** A host whose upstream service gives the same answer to every call. *)
Definition host (dev : bool) (answer : string + FetchResponse) : Host :=
  {| SessionData := Session;
     JSON_parse := parseSession;
     validateSteamSession := fun u => JS.truthy (steamid u);
     session_steamid := steamid;
     localeCompare := localeCollate;
     isDev := dev;
     communityToken := "token";
     fetch := fun _ => answer;
     URIError_message := "URI malformed";
     TypeError_message := fun v => ("Invalid header value: " ++ v)%string |}.

(** A 2xx answer with a parsed body. *)
Definition okAnswer (data : InventoryData) : string + FetchResponse :=
  inr {| ok := true; fetch_status := 200; text := EmptyString; json := inr data |}.

Definition user : string := "76561198000000001".

(** A request with a valid session cookie and the given query string. *)
Definition request (q : list (string * string)) : Request :=
  {| cookies := [("steam_session", sessionText user)]; query := q |}.

Definition asset : SteamAsset :=
  {| asset_appid := Some 753;
     asset_contextid := Some "6";
     asset_assetid := Some "A";
     asset_classid := Some "1";
     asset_instanceid := Some "0";
     asset_amount := Some "1" |}.

Definition description (nm : string) (color : option string) : SteamDescription :=
  {| desc_appid := Some (JS.Int 753);
     desc_classid := Some "1";
     desc_instanceid := Some "0";
     desc_name := Some nm;
     desc_market_hash_name := Some "753-Card";
     desc_market_name := Some "Card";
     desc_type := Some "Trading Card";
     desc_tradable := Some 1;
     desc_marketable := Some 1;
     desc_commodity := Some 0;
     desc_market_tradable_restriction := Some 7;
     desc_descriptions := Some [];
     desc_actions := None;
     desc_name_color := color;
     desc_background_color := None;
     desc_icon_url := Some "icon";
     desc_icon_url_large := None;
     desc_tags := Some [] |}.

(** A raw page. *)
Definition page (err : option string) (assets : option (list SteamAsset))
    (descs : option (list SteamDescription)) : InventoryData :=
  {| inv_error := err;
     inv_assets := assets;
     inv_descriptions := descs;
     total_inventory_count := Some 1;
     more_items := JS.Undefined;
     last_assetid := JS.Undefined |}.

(** An item with the given name and rarity color. *)
Definition item (nm : string) (color : option string) : Item :=
  merge asset (description nm color).

(** A string that is one lone surrogate, U+D800. *)
Definition loneSurrogate : string :=
  String (ascii_of_N 237) (String (ascii_of_N 160) (String (ascii_of_N 128) EmptyString)).

(** A description with the given appid and market name. *)
Definition describe (n : JS.number) (marketName : option string)
  : SteamDescription :=
  {| desc_appid := Some n;
     desc_classid := Some "1";
     desc_instanceid := Some "0";
     desc_name := Some "Card";
     desc_market_hash_name := marketName;
     desc_market_name := Some "Card";
     desc_type := Some "Trading Card";
     desc_tradable := Some 1;
     desc_marketable := Some 1;
     desc_commodity := Some 0;
     desc_market_tradable_restriction := Some 7;
     desc_descriptions := Some [];
     desc_actions := None;
     desc_name_color := None;
     desc_background_color := None;
     desc_icon_url := Some "icon";
     desc_icon_url_large := None;
     desc_tags := Some [] |}.

(** A raw page that has only its two arrays. *)
Definition arrays (assets : list SteamAsset) (descs : list SteamDescription)
  : InventoryData :=
  {| inv_error := None;
     inv_assets := Some assets;
     inv_descriptions := Some descs;
     total_inventory_count := None;
     more_items := JS.Undefined;
     last_assetid := JS.Undefined |}.

(** The outbound call of [request q] on a sample host. *)
Definition requestCall (q : list (string * string)) : Outbound :=
  requestCall (host false (inl "offline"%string))
              {| steamid := Some user |} (request q).

End Sample.

(** * Properties *)

Unset Implicit Arguments.

(** ** Truthiness and the type guard *)

Lemma truthy_nonEmpty (s : option string) :
  JS.truthy s = true <-> nonEmpty s.
Proof.
  unfold nonEmpty. destruct s as [[|c s]|]; simpl; split.
  - discriminate.
  - intros (x & Hx & Hne). injection Hx as <-. now elim Hne.
  - intros _. exists (String c s). split; [reflexivity | discriminate].
  - reflexivity.
  - discriminate.
  - intros (x & Hx & _). discriminate.
Qed.

Lemma truthyNumber_nonzero (n : option JS.number) :
  JS.truthyNumber n = true <-> exists z, n = Some z /\ z <> JS.Int 0.
Proof.
  destruct n as [[[|p|p]| |]|]; simpl; split; try discriminate; try reflexivity;
    try (intros _; eexists; split; [reflexivity | discriminate]).
  - intros (z & Hz & Hne). injection Hz as <-. now elim Hne.
  - intros (z & Hz & _). discriminate.
Qed.

Lemma isSome_exists {A : Type} (x : option A) :
  JS.isSome x = true <-> exists a, x = Some a.
Proof.
  destruct x; simpl; split; try discriminate; eauto.
  intros (a & Ha). discriminate.
Qed.

Lemma truthy_false_str (s : option string) :
  JS.truthy s = false -> str s = EmptyString.
Proof. destruct s as [[|c s]|]; simpl; congruence. Qed.

(** The guard accepts exactly the items with every required field. *)
Lemma isValidInventoryItem_requiredFields (item : Item) :
  isValidInventoryItem item = true <-> requiredFields item.
Proof.
  unfold isValidInventoryItem, requiredFields, isNumber, isArray.
  rewrite !andb_true_iff, !truthy_nonEmpty, truthyNumber_nonzero, !isSome_exists.
  tauto.
Qed.

(** ** The merge *)

Lemma In_compact {A : Type} (x : A) (l : list (option A)) :
  In x (JS.compact l) <-> In (Some x) l.
Proof.
  induction l as [|[y|] l IH]; simpl.
  - tauto.
  - rewrite IH. split; intros [H|H]; auto; left; congruence.
  - rewrite IH. split; [auto | intros [H|H]; [discriminate | assumption]].
Qed.

Lemma mergeAsset_Some (descs : list SteamDescription) (asset : SteamAsset)
    (item : Item) :
  mergeAsset descs asset = Some item <->
  exists description,
    find (matches asset) descs = Some description /\
    item = merge asset description /\
    isValidInventoryItem item = true.
Proof.
  unfold mergeAsset. destruct (find (matches asset) descs) as [d|].
  - destruct (isValidInventoryItem (merge asset d)) eqn:V; split.
    + intros [= <-]. eauto.
    + intros (d' & [= <-] & -> & _). reflexivity.
    + discriminate.
    + intros (d' & [= <-] & -> & V'). congruence.
  - split; [discriminate | intros (d' & H & _); discriminate].
Qed.

(** Membership in the merged list. *)
Lemma In_reconcile (assets : list SteamAsset) (descs : list SteamDescription)
    (item : Item) :
  In item (reconcile assets descs) <->
  mergedFrom assets descs item /\ isValidInventoryItem item = true.
Proof.
  unfold reconcile, mergedFrom. rewrite In_compact, in_map_iff. split.
  - intros (asset & Hm & Hin). apply mergeAsset_Some in Hm.
    destruct Hm as (d & Hf & He & Hv). eauto 8.
  - intros ((asset & d & Hin & Hf & He) & Hv). exists asset. split; [|assumption].
    apply mergeAsset_Some. eauto.
Qed.

(** An asset without a matching description contributes nothing. *)
Lemma mergeAsset_unmatched (descs : list SteamDescription) (asset : SteamAsset) :
  find (matches asset) descs = None -> mergeAsset descs asset = None.
Proof. unfold mergeAsset. now intros ->. Qed.

Lemma reconcile_cons (asset : SteamAsset) (assets : list SteamAsset)
    (descs : list SteamDescription) :
  reconcile (asset :: assets) descs =
  match mergeAsset descs asset with
  | Some item => item :: reconcile assets descs
  | None => reconcile assets descs
  end.
Proof. unfold reconcile. simpl. now destruct (mergeAsset descs asset). Qed.

Lemma reconcile_length (assets : list SteamAsset) (descs : list SteamDescription) :
  (List.length (reconcile assets descs) <= List.length assets)%nat.
Proof.
  induction assets as [|a l IH]; [apply le_n|].
  rewrite reconcile_cons. destruct (mergeAsset descs a); simpl; lia.
Qed.

Lemma reconcile_no_descriptions (assets : list SteamAsset) :
  reconcile assets [] = [].
Proof.
  induction assets as [|a l IH]; [reflexivity|].
  rewrite reconcile_cons. exact IH.
Qed.

(** ** The stable sort *)

Lemma In_insert {A : Type} (cmp : A -> A -> Z) (x a : A) (l : list A) :
  In x (JS.insert cmp a l) <-> x = a \/ In x l.
Proof.
  induction l as [|y l IH]; simpl.
  - intuition congruence.
  - destruct (cmp a y <=? 0); simpl; [|rewrite IH]; intuition congruence.
Qed.

(** Sorting keeps the elements. *)
Lemma In_sort {A : Type} (cmp : A -> A -> Z) (x : A) (l : list A) :
  In x (JS.sort cmp l) <-> In x l.
Proof.
  induction l as [|a l IH]; simpl; [tauto|].
  unfold JS.sort in *. simpl. rewrite In_insert, IH. intuition congruence.
Qed.

Lemma sort_nil {A : Type} (cmp : A -> A -> Z) : JS.sort cmp [] = [].
Proof. reflexivity. Qed.

(** An element of a filtered list sits at a matching place of the list. *)
Lemma filter_split {A : Type} (p : A -> bool) (l u v : list A) (x : A) :
  filter p l = u ++ x :: v ->
  exists l1 l2, l = l1 ++ x :: l2 /\ filter p l1 = u /\ filter p l2 = v.
Proof.
  revert u. induction l as [|y l IH]; intros u E; simpl in E.
  - destruct u; discriminate E.
  - destruct (p y) eqn:Py.
    + destruct u as [|z u]; simpl in E; injection E as -> E.
      * exists [], l. auto.
      * destruct (IH u E) as (l1 & l2 & -> & F1 & F2).
        exists (z :: l1), l2. simpl. rewrite Py, F1. auto.
    + destruct (IH u E) as (l1 & l2 & -> & F1 & F2).
      exists (y :: l1), l2. simpl. rewrite Py. auto.
Qed.

Section SortFacts.

Context {A : Type} (cmp : A -> A -> Z) {consistent : Consistent cmp}.

Lemma cmp_after_before (x y : A) : 0 < cmp x y -> cmp y x < 0.
Proof. intros H. pose proof (cmp_antisym x y). lia. Qed.

Lemma cmp_zero_sym (x y : A) : cmp x y = 0 -> cmp y x = 0.
Proof. intros H. pose proof (cmp_antisym x y). lia. Qed.

(** Ties are transitive. *)
Lemma cmp_zero_trans (x y z : A) : cmp x y = 0 -> cmp y z = 0 -> cmp x z = 0.
Proof.
  intros Hxy Hyz.
  assert (cmp x z <= 0) by (apply (cmp_trans x y z); lia).
  assert (cmp z x <= 0).
  { apply (cmp_trans z y x); [rewrite (cmp_zero_sym _ _ Hyz)
                             | rewrite (cmp_zero_sym _ _ Hxy)]; lia. }
  pose proof (cmp_antisym x z). lia.
Qed.

Lemma insert_sorted (a : A) (l : list A) :
  sorted cmp l -> sorted cmp (JS.insert cmp a l).
Proof.
  unfold sorted. induction 1 as [|y l Hs IH Hhd]; simpl.
  - repeat constructor.
  - destruct (cmp a y <=? 0) eqn:E.
    + apply Z.leb_le in E. repeat constructor; assumption.
    + apply Z.leb_gt in E. constructor; [exact IH|].
      destruct l as [|z l]; simpl.
      * constructor. pose proof (cmp_after_before _ _ E). lia.
      * destruct (cmp a z <=? 0).
        -- constructor. pose proof (cmp_after_before _ _ E). lia.
        -- constructor. now inversion Hhd.
Qed.

(** The result of the sort is in comparator order. *)
Lemma sort_sorted (l : list A) : sorted cmp (JS.sort cmp l).
Proof.
  induction l as [|a l IH]; [constructor|].
  apply insert_sorted, IH.
Qed.

(** A list already in order is returned as it is. *)
Lemma sort_of_sorted (l : list A) : sorted cmp l -> JS.sort cmp l = l.
Proof.
  unfold sorted. induction 1 as [|a l Hs IH Hhd]; [reflexivity|].
  unfold JS.sort in *. simpl. rewrite IH.
  destruct Hhd as [|b l Hab]; [reflexivity|].
  simpl. apply Z.leb_le in Hab. now rewrite Hab.
Qed.

Lemma sort_idempotent (l : list A) :
  JS.sort cmp (JS.sort cmp l) = JS.sort cmp l.
Proof. apply sort_of_sorted, sort_sorted. Qed.

(** Inserting an element does not reorder the elements tied with [x]. *)
Lemma filter_tie_insert (x a : A) (l : list A) :
  filter (tie cmp x) (JS.insert cmp a l) = filter (tie cmp x) (a :: l).
Proof.
  induction l as [|y l IH]; [reflexivity|].
  simpl JS.insert. destruct (cmp a y <=? 0) eqn:E; [reflexivity|].
  apply Z.leb_gt in E.
  change (filter (tie cmp x) (y :: JS.insert cmp a l))
    with (if tie cmp x y then y :: filter (tie cmp x) (JS.insert cmp a l)
          else filter (tie cmp x) (JS.insert cmp a l)).
  rewrite IH. simpl. unfold tie.
  destruct (cmp x a =? 0) eqn:Ea, (cmp x y =? 0) eqn:Ey; try reflexivity.
  apply Z.eqb_eq in Ea, Ey.
  pose proof (cmp_zero_trans _ _ _ (cmp_zero_sym _ _ Ea) Ey). lia.
Qed.

(** Stability: the elements tied with [x] come out in their input order. *)
Lemma sort_stable (x : A) (l : list A) :
  filter (tie cmp x) (JS.sort cmp l) = filter (tie cmp x) l.
Proof.
  induction l as [|a l IH]; [reflexivity|].
  unfold JS.sort in *. simpl fold_right.
  rewrite filter_tie_insert. simpl. now rewrite IH.
Qed.

Lemma tie_refl (x : A) : tie cmp x x = true.
Proof.
  unfold tie. apply Z.eqb_eq. pose proof (cmp_antisym x x). lia.
Qed.

(** Two tied elements stay in their input order. *)
Lemma sort_keeps_order (l1 l2 l3 : list A) (a b : A) :
  tie cmp a b = true ->
  exists m1 m2 m3,
    JS.sort cmp (l1 ++ a :: l2 ++ b :: l3) = m1 ++ a :: m2 ++ b :: m3.
Proof.
  intros T.
  pose proof (sort_stable a (l1 ++ a :: l2 ++ b :: l3)) as F.
  rewrite (filter_app _ l1) in F. simpl in F. rewrite tie_refl in F.
  rewrite (filter_app _ l2) in F. simpl in F. rewrite T in F.
  destruct (filter_split _ _ _ _ _ F) as (m1 & r & E & _ & Fr).
  destruct (filter_split _ _ _ _ _ Fr) as (m2 & m3 & E' & _ & _).
  exists m1, m2, m3. now rewrite E, E'.
Qed.

End SortFacts.

(** ** The comparators *)

Lemma ascii_compare_N (x y : ascii) :
  Ascii.compare x y = N.compare (N_of_ascii x) (N_of_ascii y).
Proof. reflexivity. Qed.

Lemma string_compare_cons (x y : ascii) (a b : string) :
  String.compare (String x a) (String y b) =
  match Ascii.compare x y with
  | Eq => String.compare a b
  | Lt => Lt
  | Gt => Gt
  end.
Proof. simpl. now destruct (Ascii.compare x y). Qed.

Lemma string_compare_trans (a b c : string) :
  String.compare a b <> Gt -> String.compare b c <> Gt ->
  String.compare a c <> Gt.
Proof.
  revert b c. induction a as [|x a IH]; intros [|y b] [|z c]; simpl;
    try congruence.
  change (match Ascii.compare x y with Eq => String.compare a b | Lt => Lt | Gt => Gt end <> Gt ->
          match Ascii.compare y z with Eq => String.compare b c | Lt => Lt | Gt => Gt end <> Gt ->
          match Ascii.compare x z with Eq => String.compare a c | Lt => Lt | Gt => Gt end <> Gt).
  rewrite !ascii_compare_N.
  destruct (N.compare_spec (N_of_ascii x) (N_of_ascii y)) as [Exy|Lxy|Gxy];
    destruct (N.compare_spec (N_of_ascii y) (N_of_ascii z)) as [Eyz|Lyz|Gyz];
    destruct (N.compare_spec (N_of_ascii x) (N_of_ascii z)) as [Exz|Lxz|Gxz];
    try congruence; try lia.
  apply IH.
Qed.

#[export] Instance lexCompare_consistent : Consistent lexCompare.
Proof.
  split.
  - intros x y. unfold lexCompare. rewrite (String.compare_antisym x y).
    now destruct (String.compare y x).
  - intros x y z. unfold lexCompare. intros Hxy Hyz.
    pose proof (string_compare_trans x y z) as T.
    destruct (String.compare x y), (String.compare y z), (String.compare x z);
      try lia; exfalso; apply T; congruence.
Qed.

(** The comparator of the route is consistent whenever the collation is. *)
#[export] Instance compareItems_consistent (lc : string -> string -> Z)
    {collation : Consistent lc} : Consistent (compareItems lc).
Proof.
  split.
  - intros a b. unfold compareItems.
    destruct (JS.truthy (name_color a)), (JS.truthy (name_color b)); simpl;
      try reflexivity; apply cmp_antisym.
  - intros a b c. unfold compareItems.
    destruct (JS.truthy (name_color a)), (JS.truthy (name_color b)),
      (JS.truthy (name_color c)); simpl; try lia.
    + intros Hab Hbc. exact (cmp_trans _ _ _ Hbc Hab).
    + apply cmp_trans.
Qed.

(** ** The merge as it runs *)

Lemma mergeCallback_spec (e : string) (descs : list SteamDescription)
    (asset : SteamAsset) :
  mergeCallback e descs asset
  = if mergeRaises descs asset then inl e else inr (mergeAsset descs asset).
Proof.
  unfold mergeCallback, mergeRaises, mergeAsset.
  destruct (find (matches asset) descs) as [d|]; [|reflexivity].
  now destruct (JS.encodeURIComponent_raises (desc_market_hash_name d)).
Qed.

(** The [map] raises as soon as one callback does; when none does, its
    value after the [filter] is [reconcile]. *)
Lemma mergeItems_spec (e : string) (assets : list SteamAsset)
    (descs : list SteamDescription) :
  mergeItems e assets descs
  = if existsb (mergeRaises descs) assets then inl e
    else inr (reconcile assets descs).
Proof.
  unfold mergeItems, reconcile.
  induction assets as [|a l IH]; [reflexivity|].
  cbn [JS.mapM existsb map]. rewrite mergeCallback_spec.
  destruct (mergeRaises descs a); [reflexivity|]. cbn [orb].
  destruct (JS.mapM (mergeCallback e descs) l) as [m|items];
    destruct (existsb (mergeRaises descs) l); try discriminate IH.
  - injection IH as ->. reflexivity.
  - injection IH as IH. cbn [JS.compact].
    destruct (mergeAsset descs a); now rewrite IH.
Qed.

(** ** The handler, path by path *)

Ltac run_GET :=
  unfold GET, GET_try, bind, lift, await_fetch, return_, throw, ret.

(** No cookie, or an empty one: 401 without any call. *)
Lemma GET_no_cookie (h : Host) (request : Request) :
  JS.truthy (req_cookie request) = false ->
  GET h request = (NextResponse_json (ErrorBody "Unauthorized") 401, []).
Proof.
  unfold req_cookie. intros E. run_GET. now rewrite E.
Qed.

(** The cookie is not JSON: the error of [JSON.parse] reaches the [catch]. *)
Lemma GET_malformed_cookie (h : Host) (request : Request) (message : string) :
  JS.truthy (req_cookie request) = true ->
  JSON_parse h (str (req_cookie request)) = inl message ->
  GET h request = (errorResponse h message, []).
Proof.
  unfold req_cookie. intros E P. run_GET. now rewrite E, P.
Qed.

(** The session is rejected: 401 without any call. *)
Lemma GET_invalid_session (h : Host) (request : Request)
    (userData : SessionData h) :
  JS.truthy (req_cookie request) = true ->
  JSON_parse h (str (req_cookie request)) = inr userData ->
  validateSteamSession h userData = false ->
  GET h request = (NextResponse_json (ErrorBody "Invalid session") 401, []).
Proof.
  unfold req_cookie. intros E P V. run_GET. now rewrite E, P, V.
Qed.

(** No user id: 400 without any call. *)
Lemma GET_no_steamid (h : Host) (request : Request) (userData : SessionData h) :
  authenticated h request userData ->
  JS.truthy (req_steamId h userData request) = false ->
  GET h request = (NextResponse_json (ErrorBody "Steam ID required") 400, []).
Proof.
  unfold authenticated, req_cookie, req_steamId. intros (E & P & V) S.
  run_GET. now rewrite E, P, V, S.
Qed.

(** The upstream call raises, answers non-2xx, or sends a malformed body. *)
Lemma GET_fetch (h : Host) (request : Request) (userData : SessionData h) :
  authenticated h request userData ->
  JS.truthy (req_steamId h userData request) = true ->
  GET h request =
  (match fetch h (requestCall h userData request) with
   | inl message => errorResponse h message
   | inr inventoryResponse =>
     if negb (ok inventoryResponse) then
       errorResponse h
         ("Failed to fetch inventory: "
            ++ JS.Number_toString (fetch_status inventoryResponse)
            ++ " - " ++ text inventoryResponse)%string
     else
       match json inventoryResponse with
       | inl message => errorResponse h message
       | inr data =>
         if JS.truthy (inv_error data) then
           errorResponse h ("Steam API error: " ++ str (inv_error data))%string
         else if mergeCompletes data then
           if JS.isHeaderValue
                (cacheTags (str (req_steamId h userData request))
                           (req_appId request))
           then pageResponse h userData request data
           else errorResponse h
                  (TypeError_message h
                     (cacheTags (str (req_steamId h userData request))
                                (req_appId request)))
         else errorResponse h (URIError_message h)
       end
   end, [requestCall h userData request]).
Proof.
  unfold authenticated, req_cookie, req_steamId. intros (E & P & V) S.
  run_GET. rewrite E, P, V, S. simpl negb. cbv iota.
  change (fetch h _) with (fetch h (requestCall h userData request)).
  destruct (fetch h (requestCall h userData request)) as [m|r]; [reflexivity|].
  destruct (ok r); simpl negb; cbv iota; [|reflexivity].
  destruct (json r) as [m|data]; [reflexivity|].
  destruct (JS.truthy (inv_error data)); [reflexivity|].
  unfold mergeCompletes. rewrite mergeItems_spec.
  destruct (existsb (mergeRaises (orEmpty (inv_descriptions data)))
                    (orEmpty (inv_assets data))); simpl negb; cbv iota;
    [reflexivity|].
  unfold req_appId.
  destruct (JS.isHeaderValue _); reflexivity.
Qed.

(** What [tagsAccepted] is for an authenticated request. *)
Lemma tagsAccepted_authenticated (h : Host) (request : Request)
    (userData : SessionData h) :
  authenticated h request userData ->
  tagsAccepted h request
  = JS.isHeaderValue
      (cacheTags (str (req_steamId h userData request)) (req_appId request)).
Proof. intros (_ & P & _). unfold tagsAccepted. now rewrite P. Qed.

(** Every way out of the handler. *)
Lemma GET_outcomes (h : Host) (request : Request) :
  (exists e st, fst (GET h request) = NextResponse_json (ErrorBody e) st)
  \/ (exists message, fst (GET h request) = errorResponse h message)
  \/ (exists userData data,
        delivers h request data /\
        fst (GET h request) = pageResponse h userData request data).
Proof.
  destruct (JS.truthy (req_cookie request)) eqn:E.
  2: { left. rewrite (GET_no_cookie h request E). simpl. eauto. }
  destruct (JSON_parse h (str (req_cookie request))) as [m|u] eqn:P.
  { right. left. rewrite (GET_malformed_cookie h request m E P). simpl. eauto. }
  destruct (validateSteamSession h u) eqn:V.
  2: { left. rewrite (GET_invalid_session h request u E P V). simpl. eauto. }
  assert (A : authenticated h request u) by (now repeat split).
  destruct (JS.truthy (req_steamId h u request)) eqn:S.
  2: { left. rewrite (GET_no_steamid h request u A S). simpl. eauto. }
  rewrite (GET_fetch h request u A S). simpl fst.
  destruct (fetch h (requestCall h u request)) as [m|r] eqn:F; [eauto|].
  destruct (ok r) eqn:O; simpl negb; cbv iota; [|eauto].
  destruct (json r) as [m|data] eqn:J; [eauto|].
  destruct (JS.truthy (inv_error data)) eqn:Err; [eauto|].
  destruct (mergeCompletes data) eqn:Mc; [|eauto].
  destruct (JS.isHeaderValue _) eqn:Hv; [|eauto].
  right. right. exists u, data. split; [|reflexivity].
  split; [exists u, r; auto|]. split; [exact Err|]. split; [exact Mc|].
  now rewrite (tagsAccepted_authenticated h request u A).
Qed.

(** What a delivered page turns into. *)
Lemma GET_delivers (h : Host) (request : Request) (data : InventoryData) :
  delivers h request data ->
  exists userData,
    GET h request =
    (pageResponse h userData request data, [requestCall h userData request]).
Proof.
  intros ((u & r & A & S & F & O & J) & Err & Mc & Tg). exists u.
  rewrite (tagsAccepted_authenticated h request u A) in Tg.
  rewrite (GET_fetch h request u A S), F, O, J, Err, Mc, Tg. reflexivity.
Qed.

(** What an upstream error field turns into. *)
Lemma GET_upstream_error (h : Host) (request : Request) (data : InventoryData) :
  answers h request data ->
  JS.truthy (inv_error data) = true ->
  exists userData,
    GET h request =
    (errorResponse h ("Steam API error: " ++ str (inv_error data))%string,
     [requestCall h userData request]).
Proof.
  intros (u & r & A & S & F & O & J) Err. exists u.
  rewrite (GET_fetch h request u A S), F, O, J, Err. reflexivity.
Qed.

(** ** Decimal strings parse *)

Lemma allDigits_string_of_uint (d : uint) :
  allDigits (NilEmpty.string_of_uint d) = true.
Proof. induction d; simpl; try reflexivity; exact IHd. Qed.

Lemma trimStart_ascii (c : ascii) (s : string) :
  JS.isWhite1 (JS.code c) = false -> JS.code c < 194 ->
  JS.trimStart (String c s) = String c s.
Proof.
  intros W L. simpl. rewrite W.
  assert (E2 : forall c1, JS.isWhite2 (JS.code c) c1 = false).
  { intros c1. unfold JS.isWhite2.
    destruct (Z.eqb_spec (JS.code c) 194); [lia | reflexivity]. }
  assert (E3 : forall c1 c2, JS.isWhite3 (JS.code c) c1 c2 = false).
  { intros c1 c2. unfold JS.isWhite3.
    destruct (Z.eqb_spec (JS.code c) 225); [lia|].
    destruct (Z.eqb_spec (JS.code c) 226); [lia|].
    destruct (Z.eqb_spec (JS.code c) 227); [lia|].
    destruct (Z.eqb_spec (JS.code c) 239); [lia | reflexivity]. }
  destruct s as [|c1 [|c2 s]]; try reflexivity; rewrite E2; try reflexivity.
  now rewrite E3.
Qed.

Lemma readDigits_Some (radix a : Z) (s : string) :
  JS.readDigits radix (Some a) s <> None.
Proof.
  revert a. induction s as [|c s IH]; intros a; simpl; [discriminate|].
  destruct (JS.radixDigit radix c); [apply IH | discriminate].
Qed.

Lemma isDigit_radixDigit (c : ascii) :
  isDigit c = true -> JS.radixDigit 10 c = Some (JS.code c - 48).
Proof.
  unfold isDigit, JS.radixDigit, JS.digitValue. intros D. rewrite D.
  apply andb_true_iff in D. destruct D as [D1 D2].
  apply Z.leb_le in D1, D2.
  destruct (Z.ltb_spec (JS.code c - 48) 10); [reflexivity | lia].
Qed.

Lemma isDigit_not_X (c : ascii) : isDigit c = true -> JS.isX c = false.
Proof.
  unfold isDigit, JS.isX. intros D. apply andb_true_iff in D.
  destruct D as [D1 D2]. apply Z.leb_le in D1, D2.
  destruct (Z.eqb_spec (JS.code c) 120); [lia|].
  destruct (Z.eqb_spec (JS.code c) 88); [lia | reflexivity].
Qed.

Lemma parseUnsigned_digits (c : ascii) (s : string) :
  isDigit c = true -> allDigits s = true ->
  JS.parseUnsigned (String c s) <> None.
Proof.
  intros D Ds.
  assert (R : JS.readDigits 10 None (String c s) <> None).
  { simpl. rewrite (isDigit_radixDigit c D). apply readDigits_Some. }
  unfold JS.parseUnsigned. destruct s as [|x s]; [exact R|].
  simpl in Ds. apply andb_true_iff in Ds. destruct Ds as [Dx _].
  rewrite (isDigit_not_X x Dx), andb_false_r. exact R.
Qed.

Lemma parseInt_digits (c : ascii) (s : string) :
  isDigit c = true -> allDigits s = true ->
  JS.parseInt (String c s) <> None.
Proof.
  intros D Ds. unfold JS.parseInt.
  pose proof D as D'. unfold isDigit in D'. apply andb_true_iff in D'.
  destruct D' as [D1 D2]. apply Z.leb_le in D1, D2.
  rewrite trimStart_ascii.
  - destruct (Z.eqb_spec (JS.code c) 45); [lia|].
    destruct (Z.eqb_spec (JS.code c) 43); [lia|].
    now apply parseUnsigned_digits.
  - unfold JS.isWhite1.
    destruct (Z.leb_spec (JS.code c) 13); [lia|].
    destruct (Z.eqb_spec (JS.code c) 32); [lia|]. now rewrite andb_false_r.
  - lia.
Qed.

Lemma string_of_uint_digits (d : uint) :
  exists c s, NilZero.string_of_uint d = String c s /\
              isDigit c = true /\ allDigits s = true.
Proof.
  pose proof (allDigits_string_of_uint d) as Hd.
  destruct d; simpl in *;
    try (apply andb_true_iff in Hd; destruct Hd as [Hc Hs]);
    eauto.
Qed.

(** The decimal string of a number always parses as an integer. *)
Lemma parseInt_Number_toString (n : Z) :
  JS.parseInt (JS.Number_toString n) <> None.
Proof.
  unfold JS.Number_toString.
  destruct (Z.to_int n) as [d|d]; simpl.
  - destruct (string_of_uint_digits d) as (c & s & -> & D & Ds).
    now apply parseInt_digits.
  - destruct (string_of_uint_digits d) as (c & s & -> & D & Ds).
    unfold JS.parseInt. rewrite trimStart_ascii; [|reflexivity|reflexivity].
    change (JS.code "-" =? 45) with true. cbv iota.
    pose proof (parseUnsigned_digits c s D Ds) as P.
    destruct (JS.parseUnsigned (String c s)); [discriminate | contradiction].
Qed.

(** A filter string that does not parse matches no item of finite appid:
    what it keeps has an infinite one. *)
Lemma appidIs_unparseable (a : string) (item : Item) :
  JS.parseInt a = None ->
  appidIs a item = true ->
  (appid item = Some JS.Infinity /\ a = "Infinity"%string)
  \/ (appid item = Some JS.NegInfinity /\ a = "-Infinity"%string).
Proof.
  intros P. unfold appidIs. destruct (appid item) as [[z| |]|]; try discriminate.
  - intros E. apply String.eqb_eq in E. subst a.
    now elim (parseInt_Number_toString z).
  - intros E. apply String.eqb_eq in E. auto.
  - intros E. apply String.eqb_eq in E. auto.
Qed.

(** ** Sample requests *)

Lemma sample_authenticated (dev : bool) (answer : string + FetchResponse)
    (q : list (string * string)) :
  authenticated (Sample.host dev answer) (Sample.request q)
                {| Sample.steamid := Some Sample.user |}.
Proof. repeat split. Qed.

Lemma sample_answers (dev : bool) (data : InventoryData)
    (q : list (string * string)) :
  answers (Sample.host dev (Sample.okAnswer data)) (Sample.request q) data.
Proof.
  exists {| Sample.steamid := Some Sample.user |}.
  eexists. split; [apply sample_authenticated|].
  split; [|repeat split].
  unfold req_steamId, JS.orElse. simpl.
  destruct (JS.truthy (JS.get q "steamid")) eqn:E; [exact E | reflexivity].
Qed.

Lemma sample_delivers (dev : bool) (data : InventoryData)
    (q : list (string * string)) :
  JS.truthy (inv_error data) = false ->
  mergeCompletes data = true ->
  tagsAccepted (Sample.host dev (Sample.okAnswer data)) (Sample.request q) = true ->
  delivers (Sample.host dev (Sample.okAnswer data)) (Sample.request q) data.
Proof. intros E M T. split; [apply sample_answers | auto]. Qed.

(** A sample page is delivered: each condition is checked by evaluation. *)
Ltac sample_delivery := apply sample_delivers; reflexivity.

(** The appids of a sample page are what the statement asks: each
    description of the list is looked at. *)
Ltac sample_appids :=
  intros d n Hin Hn; simpl in Hin;
  repeat (destruct Hin as [<-|Hin]; [injection Hn as <-; reflexivity|]);
  contradiction.

(** * The claims *)

(** ** C1: which items the response lists *)

Lemma responseItems_delivers (h : Host) (request : Request)
    (data : InventoryData) :
  delivers h request data ->
  responseItems (fst (GET h request)) = pageItems h request data.
Proof.
  intros D. destruct (GET_delivers h request data D) as (u & ->). reflexivity.
Qed.

Lemma In_filterByAppId (request : Request) (item : Item) (l : list Item) :
  In item (filterByAppId (req_appId request) l) <->
  In item l /\ passesFilter request item.
Proof.
  unfold filterByAppId, passesFilter.
  destruct (JS.truthy (req_appId request)) eqn:T.
  - rewrite filter_In. unfold appidIs. split.
    + intros (Hin & Ha). split; [assumption|]. right.
      destruct (appid item) as [n|]; [|discriminate].
      exists n. split; [reflexivity|]. now apply String.eqb_eq.
    + intros (Hin & [Hf | (n & Hn & He)]); [discriminate|].
      split; [assumption|]. rewrite Hn. now apply String.eqb_eq.
  - intuition.
Qed.

(** C1, as amended.  When a page is delivered (its merge raises nothing)
    and its appids are safe integers or infinities, an item is in the
    response list if and only if it is the merge of an asset of the page
    with its first matching description (same [classid] and [instanceid]),
    every required field of the merged item passes validation, and the item
    passes the collection filter of the request when there is one: the text
    of its appid is the filter.  So no partially populated item is ever
    emitted.  The bound on the appids is what makes [JS.number_toString] the
    text the engine compares. *)
Theorem response_items_valid_merged_filtered :
  forall (h : Host) (request : Request) (data : InventoryData),
    delivers h request data ->
    exactAppids data ->
    forall item : Item,
      In item (responseItems (fst (GET h request))) <->
      mergedFrom (orEmpty (inv_assets data)) (orEmpty (inv_descriptions data)) item
      /\ requiredFields item
      /\ passesFilter request item.
Proof.
  intros h request data D _ item.
  rewrite (responseItems_delivers h request data D). unfold pageItems.
  rewrite In_sort, In_filterByAppId, In_reconcile,
    isValidInventoryItem_requiredFields.
  tauto.
Qed.

Lemma response_items_valid_merged_filtered_witness :
  In (Sample.item "Card" None)
     (responseItems
        (fst (GET (Sample.host false
                     (Sample.okAnswer
                        (Sample.page None (Some [Sample.asset])
                           (Some [Sample.description "Card" None]))))
                  (Sample.request [("appid", "753")])))) <->
  mergedFrom [Sample.asset] [Sample.description "Card" None]
             (Sample.item "Card" None)
  /\ requiredFields (Sample.item "Card" None)
  /\ passesFilter (Sample.request [("appid", "753")]) (Sample.item "Card" None).
Proof.
  apply (response_items_valid_merged_filtered
           (Sample.host false
              (Sample.okAnswer
                 (Sample.page None (Some [Sample.asset])
                    (Some [Sample.description "Card" None]))))
           (Sample.request [("appid", "753")])
           (Sample.page None (Some [Sample.asset])
              (Some [Sample.description "Card" None]))).
  - sample_delivery.
  - sample_appids.
Defined.

(** C1, as stated, fails: with the collection filter [abc] the merged item
    of the page passes validation and yet the response lists nothing. *)
Lemma valid_item_missing_from_response :
  ~ (forall (h : Host) (request : Request) (data : InventoryData),
        delivers h request data ->
        forall item : Item,
          In item (responseItems (fst (GET h request))) <->
          mergedFrom (orEmpty (inv_assets data))
                     (orEmpty (inv_descriptions data)) item
          /\ requiredFields item).
Proof.
  intros claim.
  pose (data := Sample.page None (Some [Sample.asset])
                  (Some [Sample.description "Card" None])).
  pose (h := Sample.host false (Sample.okAnswer data)).
  pose (request := Sample.request [("appid", "abc")]).
  assert (D : delivers h request data) by sample_delivery.
  destruct (claim h request data D (Sample.item "Card" None)) as [_ back].
  assert (V : requiredFields (Sample.item "Card" None)).
  { apply isValidInventoryItem_requiredFields. reflexivity. }
  assert (Mg : mergedFrom (orEmpty (inv_assets data))
                 (orEmpty (inv_descriptions data)) (Sample.item "Card" None)).
  { exists Sample.asset, (Sample.description "Card" None).
    repeat split. now left. }
  pose proof (back (conj Mg V)) as Listed.
  (* the response of this request lists no item at all *)
  change (In (Sample.item "Card" None) []) in Listed.
  exact Listed.
Qed.

(** ** C2: the identifier pair of an id that does not parse *)

Lemma unparseable_id_pair_general (a : string) :
  a <> EmptyString ->
  JS.parseInt a = None ->
  getInventoryAppId (Some a) = "753"%string /\
  getContextId (Some a) = "2"%string.
Proof.
  intros Hne P. split.
  - unfold getInventoryAppId. destruct a as [|c a]; [contradiction|].
    simpl JS.truthy. simpl negb. cbv iota.
    destruct (_ || _ || _)%bool eqn:K.
    + apply orb_true_iff in K. destruct K as [K|K];
        [apply orb_true_iff in K; destruct K as [K|K]|];
        apply String.eqb_eq in K; rewrite K in P; discriminate.
    + now rewrite P.
  - unfold getContextId. destruct a as [|c a]; [contradiction|].
    simpl JS.truthy. simpl negb. unfold JS.strictEq.
    destruct (String.eqb_spec (String c a) "753") as [K|K];
      [rewrite K in P; discriminate | reflexivity].
Qed.

(** C2 at the code: for every non-empty id that does not parse as an
    integer (such as [abc]) the catalog id is the default [753], but the
    partition id is the game-items [2], not the community [6] that the
    absent id and the id [753] get. *)
Theorem unparseable_id_pair :
  forall a : string,
    a <> EmptyString ->
    JS.parseInt a = None ->
    getInventoryAppId (Some a) = "753"%string /\
    getContextId (Some a) = "2"%string /\
    getContextId None = "6"%string /\
    getContextId (Some "753"%string) = "6"%string /\
    getInventoryAppId None = "753"%string /\
    getInventoryAppId (Some "753"%string) = "753"%string.
Proof.
  intros a Hne P.
  destruct (unparseable_id_pair_general a Hne P) as [Happ Hctx].
  repeat split; assumption.
Qed.

Lemma unparseable_id_pair_witness :
  getInventoryAppId (Some "abc"%string) = "753"%string /\
  getContextId (Some "abc"%string) = "2"%string /\
  getContextId None = "6"%string /\
  getContextId (Some "753"%string) = "6"%string /\
  getInventoryAppId None = "753"%string /\
  getInventoryAppId (Some "753"%string) = "753"%string.
Proof.
  apply (unparseable_id_pair "abc"); [discriminate | reflexivity].
Defined.

(** ** C3: the comparator *)

(** The model of the locale collation is a comparator a sort can use. *)
#[export] Instance localeCollate_consistent : Consistent localeCollate.
Proof.
  split.
  - intros x y. unfold localeCollate.
    rewrite (String.compare_antisym (foldCase x) (foldCase y)).
    destruct (String.compare (foldCase y) (foldCase x)); try reflexivity.
    simpl CompOpp. cbv iota. apply cmp_antisym.
  - intros x y z. unfold localeCollate.
    pose proof (string_compare_trans (foldCase x) (foldCase y) (foldCase z)) as T.
    destruct (String.compare (foldCase x) (foldCase y)) eqn:Exy; try lia.
    + apply String.compare_eq_iff in Exy. rewrite Exy.
      destruct (String.compare (foldCase y) (foldCase z)); try lia.
      apply cmp_trans.
    + destruct (String.compare (foldCase y) (foldCase z)) eqn:Eyz; try lia.
      * apply String.compare_eq_iff in Eyz. rewrite <- Eyz, Exy. lia.
      * intros _ _.
        destruct (String.compare (foldCase x) (foldCase z)) eqn:Exz; try lia.
        -- apply String.compare_eq_iff in Exz. rewrite <- Exz in Eyz.
           rewrite (String.compare_antisym (foldCase x) (foldCase y)) in Exy.
           rewrite Eyz in Exy. discriminate Exy.
        -- exfalso. apply T; congruence.
Qed.

(** A negative comparison puts the first item in front, whatever the input
    order. *)
Lemma sort_pair {A : Type} (cmp : A -> A -> Z) (a b : A) :
  Consistent cmp ->
  cmp a b < 0 ->
  JS.sort cmp [a; b] = [a; b] /\ JS.sort cmp [b; a] = [a; b].
Proof.
  intros C Hab. unfold JS.sort. simpl.
  pose proof (cmp_antisym a b) as Anti.
  destruct (Z.leb_spec (cmp a b) 0); [|lia].
  destruct (Z.leb_spec (cmp b a) 0); [lia|]. auto.
Qed.

(** C3, as amended.  With the collation [lc] behind [localeCompare], an
    item with a rarity color sorts before an item without one; two items
    with a rarity color compare as [lc] orders their colors, taken in
    descending order (the item whose color comes later sorts first); two
    items without compare as [lc] orders their names, in ascending order.
    In each case the sort puts the item that compares first in front,
    whatever the input order.  Under the default collation the Legendary
    item is before the Common one, and the name apple is before the name
    Zebra, which lexicographic order puts after it. *)
Theorem compareItems_order :
  forall (lc : string -> string -> Z),
    Consistent lc ->
    forall a b : Item,
      (hasColor a = true -> hasColor b = false ->
       compareItems lc a b < 0 /\ 0 < compareItems lc b a /\
       JS.sort (compareItems lc) [a; b] = [a; b] /\
       JS.sort (compareItems lc) [b; a] = [a; b]) /\
      (hasColor a = true -> hasColor b = true ->
       compareItems lc a b = lc (str (name_color b)) (str (name_color a)) /\
       (lc (str (name_color b)) (str (name_color a)) < 0 ->
        JS.sort (compareItems lc) [a; b] = [a; b] /\
        JS.sort (compareItems lc) [b; a] = [a; b])) /\
      (hasColor a = false -> hasColor b = false ->
       compareItems lc a b = lc (str (name a)) (str (name b)) /\
       (lc (str (name a)) (str (name b)) < 0 ->
        JS.sort (compareItems lc) [a; b] = [a; b] /\
        JS.sort (compareItems lc) [b; a] = [a; b])) /\
      Consistent localeCollate /\
      localeCollate "Common" "Legendary" < 0 /\
      JS.sort (compareItems localeCollate)
              [Sample.item "y" (Some "Common"%string);
               Sample.item "x" (Some "Legendary"%string)]
      = [Sample.item "x" (Some "Legendary"%string);
         Sample.item "y" (Some "Common"%string)] /\
      localeCollate "apple" "Zebra" < 0 /\
      String.ltb "Zebra" "apple" = true /\
      JS.sort (compareItems localeCollate)
              [Sample.item "Zebra" None; Sample.item "apple" None]
      = [Sample.item "apple" None; Sample.item "Zebra" None].
Proof.
  intros lc C a b. unfold hasColor.
  assert (Cc : Consistent (compareItems lc)) by exact _.
  split; [|split; [|split; [|split; [|repeat split]]]].
  - intros Ha Hb.
    assert (L : compareItems lc a b < 0).
    { unfold compareItems. rewrite Ha, Hb. simpl. lia. }
    split; [exact L|]. split.
    + unfold compareItems. rewrite Ha, Hb. simpl. lia.
    + exact (sort_pair (compareItems lc) a b Cc L).
  - intros Ha Hb.
    assert (E : compareItems lc a b
                = lc (str (name_color b)) (str (name_color a))).
    { unfold compareItems. now rewrite Ha, Hb. }
    split; [exact E|]. intros L. rewrite <- E in L.
    exact (sort_pair (compareItems lc) a b Cc L).
  - intros Ha Hb.
    assert (E : compareItems lc a b = lc (str (name a)) (str (name b))).
    { unfold compareItems. now rewrite Ha, Hb. }
    split; [exact E|]. intros L. rewrite <- E in L.
    exact (sort_pair (compareItems lc) a b Cc L).
  - exact localeCollate_consistent.
Qed.

Lemma compareItems_order_witness :
  JS.sort (compareItems localeCollate)
          [Sample.item "a" None; Sample.item "x" (Some "Rare"%string)]
  = [Sample.item "x" (Some "Rare"%string); Sample.item "a" None].
Proof.
  destruct (compareItems_order localeCollate localeCollate_consistent
              (Sample.item "x" (Some "Rare"%string)) (Sample.item "a" None))
    as (Colored & _).
  exact (proj2 (proj2 (proj2 (Colored eq_refl eq_refl)))).
Defined.

(** C3, as stated, fails: the names are not compared in lexicographic
    order.  The name apple is lexicographically after the name Zebra (the
    code of [a] is above the code of [Z]) and yet the item named apple
    compares before the item named Zebra. *)
Lemma locale_order_not_lexicographic :
  ~ (forall a b : Item,
        hasColor a = false -> hasColor b = false ->
        (compareItems localeCollate a b < 0 <->
         String.ltb (str (name a)) (str (name b)) = true)).
Proof.
  intros claim.
  destruct (claim (Sample.item "apple" None) (Sample.item "Zebra" None)
                  eq_refl eq_refl) as [forth _].
  assert (L : compareItems localeCollate (Sample.item "apple" None)
                                         (Sample.item "Zebra" None) < 0)
    by reflexivity.
  discriminate (forth L).
Qed.

(** ** C4: assets without a description *)

Lemma response_items_of_page (h : Host) (request : Request)
    (data : InventoryData) :
  delivers h request data ->
  forall item, In item (responseItems (fst (GET h request))) ->
               mergedFrom (orEmpty (inv_assets data))
                          (orEmpty (inv_descriptions data)) item.
Proof.
  intros D item. rewrite (responseItems_delivers h request data D).
  unfold pageItems. rewrite In_sort, In_filterByAppId, In_reconcile. tauto.
Qed.

Lemma reconcile_app (l1 l2 : list SteamAsset) (descs : list SteamDescription) :
  reconcile (l1 ++ l2) descs = reconcile l1 descs ++ reconcile l2 descs.
Proof.
  induction l1 as [|a l1 IH]; [reflexivity|].
  change ((a :: l1) ++ l2) with (a :: (l1 ++ l2)).
  rewrite (reconcile_cons a (l1 ++ l2)), (reconcile_cons a l1), IH.
  now destruct (mergeAsset descs a).
Qed.

Lemma find_no_match (asset : SteamAsset) (descs : list SteamDescription) :
  (forall d, In d descs -> matches asset d = false) ->
  find (matches asset) descs = None.
Proof.
  intros H. destruct (find (matches asset) descs) as [d|] eqn:F; [|reflexivity].
  apply find_some in F. destruct F as [Hin Hm].
  rewrite (H d Hin) in Hm. discriminate.
Qed.

Lemma strictEq_iff (a b : option string) : JS.strictEq a b = true <-> a = b.
Proof.
  destruct a as [x|], b as [y|]; simpl; split; try discriminate;
    try reflexivity.
  - intros E. apply String.eqb_eq in E. now subst.
  - intros [= ->]. apply String.eqb_refl.
Qed.

(** A description matches an asset exactly when both ids are equal. *)
Lemma matches_ids (asset : SteamAsset) (d : SteamDescription) :
  matches asset d = true <->
  desc_classid d = asset_classid asset /\
  desc_instanceid d = asset_instanceid asset.
Proof. unfold matches. now rewrite andb_true_iff, !strictEq_iff. Qed.

(** What a raising merge turns into. *)
Lemma GET_merge_raises (h : Host) (request : Request) (data : InventoryData) :
  answers h request data ->
  JS.truthy (inv_error data) = false ->
  mergeCompletes data = false ->
  exists userData,
    GET h request
    = (errorResponse h (URIError_message h), [requestCall h userData request]).
Proof.
  intros (u & r & A & S & F & O & J) Err Mc. exists u.
  rewrite (GET_fetch h request u A S), F, O, J, Err, Mc. reflexivity.
Qed.

(** C4 at the code.  An asset that no description equals on [classid] and
    [instanceid] leaves the merged list as it is without it; a delivered
    page is answered 200 with [success: true], and its items all come from
    matched assets; a page of one asset and no description gives an empty
    item list and, when it declares no total, a total of 0.  But the merge
    can fail the request: when the market name of a matched description
    holds a lone surrogate, [encodeURIComponent] raises inside the [map] and
    the answer is the 500 failure response. *)
Theorem unmatched_assets_dropped :
  forall (h : Host) (request : Request) (data : InventoryData),
    answers h request data ->
    JS.truthy (inv_error data) = false ->
    (forall (before after : list SteamAsset) (asset : SteamAsset)
            (descs : list SteamDescription),
        (forall d, In d descs ->
                   ~ (desc_classid d = asset_classid asset /\
                      desc_instanceid d = asset_instanceid asset)) ->
        reconcile (before ++ asset :: after) descs
        = reconcile (before ++ after) descs) /\
    (delivers h request data ->
     status (fst (GET h request)) = 200 /\
     (exists e, body (fst (GET h request)) = SuccessBody e /\
                success e = true /\
                items e = pageItems h request data) /\
     (forall item, In item (responseItems (fst (GET h request))) ->
                   mergedFrom (orEmpty (inv_assets data))
                              (orEmpty (inv_descriptions data)) item)) /\
    (forall asset, inv_assets data = Some [asset] ->
                   orEmpty (inv_descriptions data) = [] ->
                   tagsAccepted h request = true ->
                   status (fst (GET h request)) = 200 /\
                   exists e, body (fst (GET h request)) = SuccessBody e /\
                             success e = true /\
                             items e = [] /\
                             (total_inventory_count data = None ->
                              total_count e = 0)) /\
    (mergeCompletes data = false ->
     fst (GET h request) = errorResponse h (URIError_message h) /\
     status (fst (GET h request)) = 500 /\
     responseItems (fst (GET h request)) = []).
Proof.
  intros h request data A Err.
  split; [|split; [|split]].
  - intros before after asset descs Hno.
    rewrite !reconcile_app, reconcile_cons.
    rewrite (mergeAsset_unmatched descs asset); [reflexivity|].
    apply find_no_match. intros d Hin.
    destruct (matches asset d) eqn:M; [|reflexivity].
    apply matches_ids in M. now elim (Hno d Hin).
  - intros D. split; [|split].
    + destruct (GET_delivers h request data D) as (u & ->). reflexivity.
    + destruct (GET_delivers h request data D) as (u & ->).
      eexists. split; [reflexivity|]. split; reflexivity.
    + apply (response_items_of_page h request data D).
  - intros asset Ha Hd Tg.
    assert (Mc : mergeCompletes data = true).
    { unfold mergeCompletes. rewrite Ha, Hd. reflexivity. }
    assert (D : delivers h request data) by (repeat split; assumption).
    destruct (GET_delivers h request data D) as (u & ->).
    split; [reflexivity|]. exists (pageEnvelope h request data).
    split; [reflexivity|]. split; [reflexivity|]. split.
    + cbn [items pageEnvelope]. unfold pageItems. rewrite Ha, Hd.
      simpl orEmpty. rewrite reconcile_no_descriptions.
      unfold filterByAppId. now destruct (JS.truthy (req_appId request)).
    + intros Ht. cbn [total_count pageEnvelope]. now rewrite Ht.
  - intros Mc. destruct (GET_merge_raises h request data A Err Mc) as (u & ->).
    repeat split.
Qed.

Lemma unmatched_assets_dropped_witness :
  status
    (fst (GET (Sample.host false
                 (Sample.okAnswer
                    (Sample.arrays [Sample.asset]
                       [Sample.describe (JS.Int 753) (Some Sample.loneSurrogate)])))
              (Sample.request []))) = 500.
Proof.
  destruct (unmatched_assets_dropped
              (Sample.host false
                 (Sample.okAnswer
                    (Sample.arrays [Sample.asset]
                       [Sample.describe (JS.Int 753) (Some Sample.loneSurrogate)])))
              (Sample.request [])
              (Sample.arrays [Sample.asset]
                 [Sample.describe (JS.Int 753) (Some Sample.loneSurrogate)])
              (sample_answers false _ [])
              eq_refl)
    as (_ & _ & _ & Raises).
  exact (proj1 (proj2 (Raises eq_refl))).
Defined.

(** ** C5: requests without a valid session *)

(** C5 at the code.  Without a session cookie (or with an empty one) and
    with a cookie whose parsed content is rejected, the answer is 401 and
    nothing is fetched.  With a cookie that is not JSON text nothing is
    fetched either, but [JSON.parse] raises and the answer is the 500
    failure response, not 401. *)
Theorem session_outcomes :
  forall (h : Host) (request : Request),
    (JS.truthy (req_cookie request) = false ->
     status (fst (GET h request)) = 401 /\ snd (GET h request) = []) /\
    (forall userData,
        JS.truthy (req_cookie request) = true ->
        JSON_parse h (str (req_cookie request)) = inr userData ->
        validateSteamSession h userData = false ->
        status (fst (GET h request)) = 401 /\ snd (GET h request) = []) /\
    (forall message,
        JS.truthy (req_cookie request) = true ->
        JSON_parse h (str (req_cookie request)) = inl message ->
        status (fst (GET h request)) = 500 /\
        snd (GET h request) = [] /\
        fst (GET h request) = errorResponse h message).
Proof.
  intros h request. split; [|split].
  - intros E. now rewrite (GET_no_cookie h request E).
  - intros u E P V. now rewrite (GET_invalid_session h request u E P V).
  - intros m E P. now rewrite (GET_malformed_cookie h request m E P).
Qed.

Lemma session_outcomes_witness :
  status (fst (GET (Sample.host false (inl "unreachable"%string))
                   {| cookies := [("steam_session", "not-json")];
                      query := [] |}%string)) = 500 /\
  snd (GET (Sample.host false (inl "unreachable"%string))
           {| cookies := [("steam_session", "not-json")];
              query := [] |}%string) = [].
Proof.
  destruct (proj2 (proj2 (session_outcomes
                            (Sample.host false (inl "unreachable"%string))
                            {| cookies := [("steam_session", "not-json")];
                               query := [] |}%string))
                  "Unexpected token in JSON"%string eq_refl eq_refl)
    as (St & Calls & _).
  split; [exact St | exact Calls].
Defined.

(** ** C6: an error field in a 2xx body *)

(** C6, as amended.  For every upstream 2xx response whose body has a
    non-empty error field, the handler answers 500 with the payload
    [success: false], [error: "Failed to fetch inventory"], empty [items],
    [total_count: 0], and [details] equal to ["Steam API error: "] followed
    by the upstream error in development mode and absent otherwise; the
    only header set is [Cache-Control: no-store]. *)
Theorem upstream_error_response :
  forall (h : Host) (request : Request) (data : InventoryData) (e : string),
    answers h request data ->
    inv_error data = Some e ->
    e <> EmptyString ->
    fst (GET h request) =
    {| status := 500;
       body := FailureBody
                 {| failure_success := false;
                    failure_error := "Failed to fetch inventory";
                    failure_details :=
                      if isDev h then Some ("Steam API error: " ++ e)%string
                      else None;
                    failure_items := [];
                    failure_total_count := 0 |};
       headers := [("Cache-Control", "no-store")%string] |}.
Proof.
  intros h request data e A He Hne.
  assert (T : JS.truthy (inv_error data) = true).
  { rewrite He. destruct e; [contradiction | reflexivity]. }
  destruct (GET_upstream_error h request data A T) as (u & ->).
  rewrite He. reflexivity.
Qed.

Lemma upstream_error_response_witness :
  fst (GET (Sample.host true
              (Sample.okAnswer (Sample.page (Some "Profile is private"%string) None None)))
           (Sample.request [])) =
  {| status := 500;
     body := FailureBody
               {| failure_success := false;
                  failure_error := "Failed to fetch inventory";
                  failure_details :=
                    Some "Steam API error: Profile is private"%string;
                  failure_items := [];
                  failure_total_count := 0 |};
     headers := [("Cache-Control", "no-store")%string] |}.
Proof.
  apply (upstream_error_response
           (Sample.host true
              (Sample.okAnswer (Sample.page (Some "Profile is private"%string) None None)))
           (Sample.request [])
           (Sample.page (Some "Profile is private"%string) None None)
           "Profile is private"%string).
  - apply sample_answers.
  - reflexivity.
  - discriminate.
Defined.

(** C6, as stated, fails: a 2xx body whose error field is the empty string
    is treated as a page and answered with 200. *)
Lemma empty_error_field_is_success :
  ~ (forall (h : Host) (request : Request) (data : InventoryData) (e : string),
        answers h request data ->
        inv_error data = Some e ->
        status (fst (GET h request)) = 500).
Proof.
  intros claim.
  specialize (claim (Sample.host true
                       (Sample.okAnswer (Sample.page (Some EmptyString) None None)))
                    (Sample.request [])
                    (Sample.page (Some EmptyString) None None)
                    EmptyString
                    (sample_answers true _ [])
                    eq_refl).
  discriminate claim.
Qed.

(** ** C7: absent fields of the raw page *)

(** C7, as amended.  On a delivered page an absent asset array and an
    absent description array count as empty (either way the item list is
    empty), and an absent total count as 0; the "more items" flag and the
    "last asset id" cursor are copied as they are into [has_more] and
    [next_start_asset_id], so an absent one stays absent. *)
Theorem raw_page_defaults :
  forall (h : Host) (request : Request) (data : InventoryData),
    delivers h request data ->
    exists e,
      body (fst (GET h request)) = SuccessBody e /\
      items e =
        JS.sort (compareItems (localeCompare h))
          (filterByAppId (req_appId request)
             (reconcile (orEmpty (inv_assets data))
                        (orEmpty (inv_descriptions data)))) /\
      (inv_assets data = None -> items e = []) /\
      (inv_descriptions data = None -> items e = []) /\
      total_count e = orZero (total_inventory_count data) /\
      (total_inventory_count data = None -> total_count e = 0) /\
      has_more e = more_items data /\
      next_start_asset_id e = last_assetid data.
Proof.
  intros h request data D.
  destruct (GET_delivers h request data D) as (u & ->).
  exists (pageEnvelope h request data).
  split; [reflexivity|]. split; [reflexivity|].
  split; [|split; [|split; [reflexivity|split; [|split; reflexivity]]]].
  - intros He. simpl. unfold pageItems. rewrite He. simpl.
    unfold filterByAppId. now destruct (JS.truthy (req_appId request)).
  - intros He. simpl. unfold pageItems. rewrite He. simpl.
    rewrite reconcile_no_descriptions.
    unfold filterByAppId. now destruct (JS.truthy (req_appId request)).
  - intros He. simpl. now rewrite He.
Qed.

Lemma raw_page_defaults_witness :
  exists e,
    body (fst (GET (Sample.host false (Sample.okAnswer (Sample.page None None None)))
                   (Sample.request []))) = SuccessBody e /\
    items e = [] /\ has_more e = JS.Undefined /\
    next_start_asset_id e = JS.Undefined.
Proof.
  destruct (raw_page_defaults
              (Sample.host false (Sample.okAnswer (Sample.page None None None)))
              (Sample.request [])
              (Sample.page None None None)
              (sample_delivers false (Sample.page None None None) [] eq_refl eq_refl eq_refl))
    as (e & B & _ & Ia & _ & _ & _ & Hm & Hn).
  exists e. split; [exact B|]. split; [exact (Ia eq_refl)|].
  split; [exact Hm | exact Hn].
Defined.

(** C7, as stated, fails: with the "more items" flag absent from the page,
    [has_more] is absent from the envelope, not [false]. *)
Lemma absent_flag_not_false :
  ~ (forall (h : Host) (request : Request) (data : InventoryData),
        delivers h request data ->
        more_items data = JS.Undefined ->
        exists e, body (fst (GET h request)) = SuccessBody e /\
                  has_more e = JS.Val false).
Proof.
  intros claim.
  destruct (claim (Sample.host false (Sample.okAnswer (Sample.page None None None)))
                  (Sample.request [])
                  (Sample.page None None None)
                  (sample_delivers false (Sample.page None None None) [] eq_refl eq_refl eq_refl)
                  eq_refl)
    as (e & B & Hm).
  simpl in B. injection B as <-. discriminate Hm.
Qed.

(** ** C8: the start marker of the outbound URL *)

Lemma occurs_append (c : ascii) (a b : string) :
  occurs c (a ++ b)%string = occurs c a || occurs c b.
Proof.
  induction a as [|x a IH]; [reflexivity|].
  simpl. now rewrite IH, orb_assoc.
Qed.

Lemma occurs_removeTabNewline (c : ascii) (s : string) :
  occurs c s = false -> occurs c (JS.removeTabNewline s) = false.
Proof.
  induction s as [|x s IH]; [reflexivity|].
  simpl. intros H. apply orb_false_iff in H. destruct H as [Hx Hs].
  destruct (_ || _ || _)%bool; [auto|].
  simpl. now rewrite Hx, IH.
Qed.

Lemma occurs_cut_fst (c sep : ascii) (s : string) :
  occurs c s = false -> occurs c (fst (JS.cut sep s)) = false.
Proof.
  induction s as [|x s IH]; [reflexivity|].
  simpl. intros H. apply orb_false_iff in H. destruct H as [Hx Hs].
  destruct (Ascii.eqb x sep); [reflexivity|].
  specialize (IH Hs). destruct (JS.cut sep s) as [a b]. simpl in *.
  now rewrite Hx, IH.
Qed.

Lemma cut_absent (sep : ascii) (s : string) :
  occurs sep s = false -> JS.cut sep s = (s, None).
Proof.
  induction s as [|x s IH]; [reflexivity|].
  simpl. intros H. apply orb_false_iff in H. destruct H as [Hx Hs].
  now rewrite Hx, (IH Hs).
Qed.

(** Without a question mark in its input the parsed URL has no query. *)
Lemma new_URL_no_query (rest : string) :
  occurs "?" rest = false -> JS.searchParams (JS.new_URL rest) = [].
Proof.
  intros H. unfold JS.new_URL.
  pose proof (occurs_cut_fst "?" "#" _ (occurs_removeTabNewline "?" rest H)) as Hc.
  destruct (JS.cut "#" (JS.removeTabNewline rest)) as [before fragment].
  simpl in Hc. now rewrite (cut_absent "?" before Hc).
Qed.

(** C8 at the code.  When neither the user id nor the catalog and
    partition ids contain a question mark, the outbound URL has a start
    marker exactly when the page number is greater than 1 and the caller
    gave a non-empty cursor: with page 2 and cursor [999] the marker is
    [999], with page 1 there is none.  A user id that carries its own query
    string, however, puts a start marker into the outbound URL of page 1. *)
Theorem start_marker :
  forall (steamId inventoryAppId contextId : string) (page limit : option Z)
         (cursor : option string),
    occurs "?" steamId = false ->
    occurs "?" inventoryAppId = false ->
    occurs "?" contextId = false ->
    hasStartMarker
      (inventoryUrl steamId inventoryAppId contextId page limit cursor)
    = JS.gt page 1 && JS.truthy cursor /\
    JS.get (JS.searchParams
              (inventoryUrl steamId inventoryAppId contextId
                 (JS.parseInt "2") limit (Some "999"%string)))
           "start_assetid" = Some "999"%string /\
    hasStartMarker
      (inventoryUrl steamId inventoryAppId contextId
         (JS.parseInt "1") limit cursor) = false /\
    map (fun call => JS.get (JS.searchParams (url call)) "start_assetid")
        (snd (GET (Sample.host false (inl "offline"%string))
                  (Sample.request
                     [("steamid", "76561198000000001?start_assetid=999#");
                      ("page", "1")]%string)))
    = [Some "999"%string].
Proof.
  intros steamId inventoryAppId contextId page limit cursor Hs Ha Hc.
  assert (Q : forall p c,
             JS.searchParams
               (inventoryUrl steamId inventoryAppId contextId p limit c)
             = [("l", "english"); ("count", JS.toString limit)]%string
                 ++ (if JS.gt p 1 && JS.truthy c
                     then [("start_assetid"%string, str c)] else [])).
  { intros p c. unfold inventoryUrl.
    assert (N : JS.searchParams
                  (JS.new_URL ("/inventory/" ++ steamId ++ "/" ++ inventoryAppId
                                 ++ "/" ++ contextId)%string) = []).
    { apply new_URL_no_query.
      rewrite !occurs_append, Hs, Ha, Hc. reflexivity. }
    destruct (JS.gt p 1), (JS.truthy c); unfold JS.append;
      cbn [JS.searchParams andb]; rewrite N; reflexivity. }
  unfold hasStartMarker, JS.has.
  split; [|split; [|split]].
  - rewrite Q. destruct (JS.gt page 1), (JS.truthy cursor); reflexivity.
  - rewrite Q. reflexivity.
  - rewrite Q. reflexivity.
  - reflexivity.
Qed.

Lemma start_marker_witness :
  hasStartMarker
    (inventoryUrl "76561198000000001" "753" "6" (Some 2) (Some 100)
                  (Some "999"%string))
  = true.
Proof.
  exact (proj1 (start_marker "76561198000000001" "753" "6" (Some 2) (Some 100)
                  (Some "999"%string) eq_refl eq_refl eq_refl)).
Defined.

(** ** C9: determinism and stability of the sort *)

Lemma lexCompare_zero (s t : string) : lexCompare s t = 0 <-> s = t.
Proof.
  unfold lexCompare. split.
  - destruct (String.compare s t) eqn:E; intros H; try discriminate H.
    now apply String.compare_eq_iff.
  - intros <-. pose proof (String.compare_antisym s s) as R.
    now destruct (String.compare s s).
Qed.

(** C9.  With a consistent collation, sorting a sorted list changes
    nothing, and for every item the items ranked equal to it come out in
    their input order: of two items ranked equal, the one that is first in
    the input is first in the output.  The list in a response is sorted.  With the
    lexicographic collation two items are ranked equal exactly when both
    carry the same rarity color or neither carries one and their names are
    equal. *)
Theorem sort_deterministic_stable :
  forall (lc : string -> string -> Z),
    Consistent lc ->
    forall l : list Item,
      JS.sort (compareItems lc) (JS.sort (compareItems lc) l)
      = JS.sort (compareItems lc) l /\
      (forall x : Item,
          filter (tie (compareItems lc) x) (JS.sort (compareItems lc) l)
          = filter (tie (compareItems lc) x) l) /\
      (forall (l1 l2 l3 : list Item) (a b : Item),
          l = l1 ++ a :: l2 ++ b :: l3 ->
          tie (compareItems lc) a b = true ->
          exists m1 m2 m3,
            JS.sort (compareItems lc) l = m1 ++ a :: m2 ++ b :: m3) /\
      (forall (h : Host) (request : Request) (data : InventoryData),
          localeCompare h = lc ->
          delivers h request data ->
          JS.sort (compareItems lc) (responseItems (fst (GET h request)))
          = responseItems (fst (GET h request))) /\
      (forall a b : Item,
          tie (compareItems lexCompare) a b = true <->
          (hasColor a = true /\ hasColor b = true /\
           str (name_color a) = str (name_color b))
          \/ (hasColor a = false /\ hasColor b = false /\
              str (name a) = str (name b))).
Proof.
  intros lc C l. split; [|split; [|split; [|split]]].
  - apply sort_idempotent. exact _.
  - intros x. apply sort_stable. exact _.
  - intros l1 l2 l3 a b -> T. apply sort_keeps_order; [exact _ | exact T].
  - intros h request data <- D.
    rewrite (responseItems_delivers h request data D). unfold pageItems.
    apply sort_idempotent. exact _.
  - intros a b. unfold tie, compareItems, hasColor.
    rewrite Z.eqb_eq.
    destruct (JS.truthy (name_color a)), (JS.truthy (name_color b)); simpl.
    + rewrite lexCompare_zero. intuition congruence.
    + intuition (try discriminate; try lia).
    + intuition (try discriminate; try lia).
    + rewrite lexCompare_zero. intuition congruence.
Qed.

Lemma sort_deterministic_stable_witness :
  JS.sort (compareItems lexCompare)
    (JS.sort (compareItems lexCompare)
       [Sample.item "b" None; Sample.item "a" (Some "Rare"%string);
        Sample.item "c" (Some "Rare"%string); Sample.item "b" None])
  = JS.sort (compareItems lexCompare)
      [Sample.item "b" None; Sample.item "a" (Some "Rare"%string);
       Sample.item "c" (Some "Rare"%string); Sample.item "b" None].
Proof.
  exact (proj1 (sort_deterministic_stable lexCompare lexCompare_consistent
                  [Sample.item "b" None; Sample.item "a" (Some "Rare"%string);
                   Sample.item "c" (Some "Rare"%string); Sample.item "b" None])).
Defined.

(** ** C10: a collection filter that does not parse *)

Lemma merged_appid (assets : list SteamAsset) (descs : list SteamDescription)
    (item : Item) :
  mergedFrom assets descs item ->
  exists d, In d descs /\ appid item = desc_appid d.
Proof.
  intros (asset & d & _ & F & ->). apply find_some in F.
  exists d. split; [tauto | reflexivity].
Qed.

(** C10, as amended.  When the collection filter of the request is a
    non-empty string that does not parse as an integer, the catalog fetched
    is the default [753] and no integer has that string as its decimal form.
    An item the response lists has an infinite appid, whose text
    ([Infinity] or [-Infinity]) is the filter; so with any other filter, or
    with a page whose appids are all safe integers, the response lists no
    item, and a delivered page becomes an envelope with [app_id] 753. *)
Theorem unparseable_filter_no_items :
  forall (h : Host) (request : Request) (a : string),
    req_appId request = Some a ->
    a <> EmptyString ->
    JS.parseInt a = None ->
    getInventoryAppId (req_appId request) = "753"%string /\
    (forall n : Z, JS.Number_toString n <> a) /\
    (forall item : Item,
        In item (responseItems (fst (GET h request))) ->
        (appid item = Some JS.Infinity /\ a = "Infinity"%string)
        \/ (appid item = Some JS.NegInfinity /\ a = "-Infinity"%string)) /\
    (a <> "Infinity"%string -> a <> "-Infinity"%string ->
     responseItems (fst (GET h request)) = []) /\
    (forall data : InventoryData,
        delivers h request data ->
        exists e, body (fst (GET h request)) = SuccessBody e /\
                  app_id e = "753"%string /\
                  (safeAppids data -> items e = [])).
Proof.
  intros h request a Ha Hne P.
  assert (App : getInventoryAppId (req_appId request) = "753"%string).
  { rewrite Ha. exact (proj1 (unparseable_id_pair_general a Hne P)). }
  assert (Page : forall data item,
             In item (pageItems h request data) ->
             mergedFrom (orEmpty (inv_assets data))
                        (orEmpty (inv_descriptions data)) item /\
             ((appid item = Some JS.Infinity /\ a = "Infinity"%string)
              \/ (appid item = Some JS.NegInfinity /\ a = "-Infinity"%string))).
  { intros data item. unfold pageItems, filterByAppId.
    rewrite In_sort, Ha. destruct a as [|c a]; [contradiction|].
    simpl JS.truthy. cbv iota. rewrite filter_In, In_reconcile.
    intros ((Mg & _) & K). split; [exact Mg|].
    exact (appidIs_unparseable _ item P K). }
  assert (Listed : forall item,
             In item (responseItems (fst (GET h request))) ->
             (appid item = Some JS.Infinity /\ a = "Infinity"%string)
             \/ (appid item = Some JS.NegInfinity /\ a = "-Infinity"%string)).
  { intros item.
    destruct (GET_outcomes h request)
      as [(e & st & ->) | [(m & ->) | (u & data & D & ->)]];
      try contradiction.
    intros Hin. exact (proj2 (Page data item Hin)). }
  split; [exact App|]. split; [|split; [exact Listed|split]].
  - intros n <-. exact (parseInt_Number_toString n P).
  - intros N1 N2.
    destruct (responseItems (fst (GET h request))) as [|item l]; [reflexivity|].
    destruct (Listed item (or_introl eq_refl)) as [(_ & E)|(_ & E)];
      contradiction.
  - intros data D. destruct (GET_delivers h request data D) as (u & ->).
    exists (pageEnvelope h request data).
    split; [reflexivity|]. split; [exact App|].
    intros Safe. cbn [items pageEnvelope].
    destruct (pageItems h request data) as [|item l] eqn:E; [reflexivity|].
    destruct (Page data item) as (Mg & Inf); [rewrite E; now left|].
    destruct (merged_appid _ _ item Mg) as (d & Hin & Hd).
    destruct Inf as [(Hi & _)|(Hi & _)]; rewrite Hi in Hd;
      symmetry in Hd; discriminate (Safe d _ Hin Hd).
Qed.

Lemma unparseable_filter_no_items_witness :
  responseItems
    (fst (GET (Sample.host false
                 (Sample.okAnswer
                    (Sample.page None (Some [Sample.asset])
                       (Some [Sample.description "Card" None]))))
              (Sample.request [("appid", "abc")]%string))) = [].
Proof.
  apply (unparseable_filter_no_items
           (Sample.host false
              (Sample.okAnswer
                 (Sample.page None (Some [Sample.asset])
                    (Some [Sample.description "Card" None]))))
           (Sample.request [("appid", "abc")]%string)
           "abc"%string).
  - reflexivity.
  - discriminate.
  - reflexivity.
  - discriminate.
  - discriminate.
Defined.

(** C10, as stated, fails: the filter [Infinity] does not parse as an
    integer, and it is the text of an appid that a page can carry (a JSON
    number too large for a double is read as infinity); the item of such a
    page is listed, while the catalog fetched is 753. *)
Lemma infinite_appid_listed :
  ~ (forall (h : Host) (request : Request) (a : string),
        req_appId request = Some a ->
        a <> EmptyString ->
        JS.parseInt a = None ->
        responseItems (fst (GET h request)) = []).
Proof.
  intros claim.
  specialize (claim (Sample.host false
                       (Sample.okAnswer
                          (Sample.arrays [Sample.asset]
                             [Sample.describe JS.Infinity
                                (Some "753-Card"%string)])))
                    (Sample.request [("appid", "Infinity")]%string)
                    "Infinity"%string
                    eq_refl).
  assert (Ne : "Infinity"%string <> EmptyString) by discriminate.
  specialize (claim Ne eq_refl).
  discriminate claim.
Qed.

(** * Further properties of the route *)

(** ** Every path through the handler *)

(** The five ways a request can go, each with its response and its log. *)
Lemma GET_paths (h : Host) (request : Request) :
  (JS.truthy (req_cookie request) = false /\
   GET h request = (NextResponse_json (ErrorBody "Unauthorized") 401, []))
  \/ (exists message,
        JS.truthy (req_cookie request) = true /\
        JSON_parse h (str (req_cookie request)) = inl message /\
        GET h request = (errorResponse h message, []))
  \/ (exists userData,
        JS.truthy (req_cookie request) = true /\
        JSON_parse h (str (req_cookie request)) = inr userData /\
        validateSteamSession h userData = false /\
        GET h request = (NextResponse_json (ErrorBody "Invalid session") 401, []))
  \/ (exists userData,
        authenticated h request userData /\
        JS.truthy (req_steamId h userData request) = false /\
        GET h request = (NextResponse_json (ErrorBody "Steam ID required") 400, []))
  \/ (exists userData,
        authenticated h request userData /\
        JS.truthy (req_steamId h userData request) = true /\
        snd (GET h request) = [requestCall h userData request] /\
        ((exists message, fst (GET h request) = errorResponse h message)
         \/ (exists data, delivers h request data /\
                          fst (GET h request)
                          = pageResponse h userData request data))).
Proof.
  destruct (JS.truthy (req_cookie request)) eqn:E.
  2: { left. split; [reflexivity|]. exact (GET_no_cookie h request E). }
  right.
  destruct (JSON_parse h (str (req_cookie request))) as [m|u] eqn:P.
  { left. exists m. repeat split; try assumption.
    exact (GET_malformed_cookie h request m E P). }
  right.
  destruct (validateSteamSession h u) eqn:V.
  2: { left. exists u. repeat split; try assumption.
       exact (GET_invalid_session h request u E P V). }
  right.
  assert (A : authenticated h request u) by (now repeat split).
  destruct (JS.truthy (req_steamId h u request)) eqn:S.
  2: { left. exists u. repeat split; try assumption.
       exact (GET_no_steamid h request u A S). }
  right. exists u. split; [exact A|]. split; [exact S|].
  rewrite (GET_fetch h request u A S). split; [reflexivity|]. simpl fst.
  destruct (fetch h (requestCall h u request)) as [m|r] eqn:F; [eauto|].
  destruct (ok r) eqn:O; simpl negb; cbv iota; [|eauto].
  destruct (json r) as [m|data] eqn:J; [eauto|].
  destruct (JS.truthy (inv_error data)) eqn:Err; [eauto|].
  destruct (mergeCompletes data) eqn:Mc; [|eauto].
  destruct (JS.isHeaderValue _) eqn:Hv; [|eauto].
  right. exists data. split; [|reflexivity].
  split; [exists u, r; auto|]. split; [exact Err|]. split; [exact Mc|].
  now rewrite (tagsAccepted_authenticated h request u A).
Qed.


(** ** The page size *)



(** ** Outbound calls, status codes and failures *)

(** X2.  A request makes at most one outbound call, and none when it is
    answered 401 or 400.  The call carries the server's own token as its
    cookie, a cache lifetime of 300 seconds and the tag of the user whose
    inventory is read; a 200 answer always comes from exactly one call. *)
Theorem single_outbound_call :
  forall (h : Host) (request : Request),
    (List.length (snd (GET h request)) <= 1)%nat /\
    (forall call,
        In call (snd (GET h request)) ->
        cookie_header call = ("steamLoginSecure=" ++ communityToken h)%string /\
        revalidate call = 300 /\
        exists userData,
          authenticated h request userData /\
          JS.truthy (req_steamId h userData request) = true /\
          cache_tags call = [userTag (str (req_steamId h userData request))]) /\
    (status (fst (GET h request)) = 401 \/ status (fst (GET h request)) = 400 ->
     snd (GET h request) = []) /\
    (status (fst (GET h request)) = 200 ->
     List.length (snd (GET h request)) = 1%nat).
Proof.
  intros h request.
  destruct (GET_paths h request)
    as [(_ & G) | [(m & _ & _ & G) | [(u & _ & _ & _ & G)
       | [(u & _ & _ & G) | (u & A & S & L & R)]]]];
    try (rewrite G; simpl; repeat split; try lia; try contradiction;
         try reflexivity; intros []; discriminate).
  rewrite L. simpl. split; [lia|]. split; [|split].
  - intros call [<-|[]]. repeat split. exists u. auto.
  - destruct R as [(m & ->) | (data & _ & ->)]; intros []; discriminate.
  - reflexivity.
Qed.

Lemma single_outbound_call_witness :
  cookie_header (Sample.requestCall []) = "steamLoginSecure=token"%string /\
  revalidate (Sample.requestCall []) = 300.
Proof.
  destruct (proj1 (proj2 (single_outbound_call
                            (Sample.host false (inl "offline"%string))
                            (Sample.request [])))
                  (Sample.requestCall []) (or_introl eq_refl))
    as (C & R & _).
  split; [exact C | exact R].
Defined.

(** X3.  The handler answers with 200, 400, 401 or 500 and nothing else;
    200 exactly when the upstream page was delivered (the upstream answered
    2xx with a body without error, the merge raised nothing and the cache
    tag was accepted as a header value), and then the payload is a success
    envelope. *)
Theorem status_codes :
  forall (h : Host) (request : Request),
    (status (fst (GET h request)) = 200 \/ status (fst (GET h request)) = 400
     \/ status (fst (GET h request)) = 401
     \/ status (fst (GET h request)) = 500) /\
    (status (fst (GET h request)) = 200 <->
     exists data, delivers h request data) /\
    (status (fst (GET h request)) = 200 <->
     exists e, body (fst (GET h request)) = SuccessBody e /\ success e = true).
Proof.
  intros h request.
  destruct (GET_paths h request)
    as [(E & G) | [(m & E & P & G) | [(u & E & P & V & G)
       | [(u & A & S & G) | (u & A & S & L & R)]]]].
  - rewrite G. simpl. split; [auto|]. split; split; try discriminate.
    + intros (data & (u & r & (E' & _) & _) & _). congruence.
    + intros (e & B & _). discriminate B.
  - rewrite G. simpl. split; [auto|]. split; split; try discriminate.
    + intros (data & (u & r & (_ & P' & _) & _) & _). congruence.
    + intros (e & B & _). discriminate B.
  - rewrite G. simpl. split; [auto|]. split; split; try discriminate.
    + intros (data & (u' & r & (_ & P' & V') & _) & _).
      rewrite P in P'. injection P' as <-. congruence.
    + intros (e & B & _). discriminate B.
  - rewrite G. simpl. split; [auto|]. split; split; try discriminate.
    + intros (data & (u' & r & (_ & P' & _) & S' & _) & _).
      destruct A as (_ & P & _). rewrite P in P'. injection P' as <-.
      congruence.
    + intros (e & B & _). discriminate B.
  - destruct R as [(m & R) | (data & D & R)]; rewrite R.
    + simpl. split; [auto|]. split; split; try discriminate.
      * intros (data & D). destruct (GET_delivers h request data D) as (u' & G).
        rewrite G in R. discriminate R.
      * intros (e & B & _). discriminate B.
    + simpl. split; [auto|]. split; split; try reflexivity; eauto.
Qed.

Lemma status_codes_witness :
  status (fst (GET (Sample.host false
                      (Sample.okAnswer (Sample.page None None None)))
                   (Sample.request []))) = 200.
Proof.
  apply (proj2 (proj1 (proj2 (status_codes
                                (Sample.host false
                                   (Sample.okAnswer (Sample.page None None None)))
                                (Sample.request []))))).
  exists (Sample.page None None None). sample_delivery.
Defined.

(** X4.  A 500 answer is always the uniform failure payload, empty of
    items, on which the handler has set [Cache-Control: no-store]; its
    [details] are there in development mode and never otherwise.  On no
    other answer does the handler set [no-store]. *)
Theorem failure_responses :
  forall (h : Host) (request : Request),
    (status (fst (GET h request)) = 500 ->
     JS.get (headers (fst (GET h request))) "Cache-Control"
     = Some "no-store"%string /\
     exists f,
       body (fst (GET h request)) = FailureBody f /\
       failure_success f = false /\
       failure_error f = "Failed to fetch inventory"%string /\
       failure_items f = [] /\
       failure_total_count f = 0 /\
       (isDev h = false -> failure_details f = None) /\
       (isDev h = true -> exists message, failure_details f = Some message)) /\
    (status (fst (GET h request)) <> 500 ->
     JS.get (headers (fst (GET h request))) "Cache-Control"
     <> Some "no-store"%string).
Proof.
  intros h request.
  assert (F : forall m,
             JS.get (headers (errorResponse h m)) "Cache-Control"
             = Some "no-store"%string /\
             exists f,
               body (errorResponse h m) = FailureBody f /\
               failure_success f = false /\
               failure_error f = "Failed to fetch inventory"%string /\
               failure_items f = [] /\
               failure_total_count f = 0 /\
               (isDev h = false -> failure_details f = None) /\
               (isDev h = true -> exists message, failure_details f = Some message)).
  { intros m. split; [reflexivity|]. eexists. split; [reflexivity|]. simpl.
    repeat split.
    - now intros ->.
    - intros ->. eauto. }
  destruct (GET_outcomes h request)
    as [(e & st & G) | [(m & G) | (u & data & D & G)]]; rewrite G.
  - simpl. split; [|discriminate].
    intros ->. pose proof (GET_paths h request) as Paths.
    destruct Paths
      as [(_ & G') | [(m & _ & _ & G') | [(u & _ & _ & _ & G')
         | [(u & _ & _ & G') | (u & _ & _ & _ & [(m & G') | (d & _ & G')])]]]];
      try rewrite G' in G; simpl in G; discriminate G.
  - split; [intros _; apply F|]. intros N. now elim N.
  - split; [discriminate|]. intros _. discriminate.
Qed.

Lemma failure_responses_witness :
  JS.get (headers (fst (GET (Sample.host false (inl "offline"%string))
                            (Sample.request []))))
         "Cache-Control"
  = Some "no-store"%string.
Proof.
  exact (proj1 (proj1 (failure_responses
                         (Sample.host false (inl "offline"%string))
                         (Sample.request []))
                      eq_refl)).
Defined.

(** X5.  Once the call is made, each transport failure becomes the 500
    failure response with its own diagnostic: the message of a rejected
    [fetch]; for a non-2xx answer the upstream status and body text (the
    body is then never read as JSON); the message of a body that is not
    JSON. *)
Theorem transport_failures :
  forall (h : Host) (request : Request) (userData : SessionData h),
    authenticated h request userData ->
    JS.truthy (req_steamId h userData request) = true ->
    (forall message,
        fetch h (requestCall h userData request) = inl message ->
        GET h request
        = (errorResponse h message, [requestCall h userData request])) /\
    (forall r,
        fetch h (requestCall h userData request) = inr r ->
        ok r = false ->
        GET h request
        = (errorResponse h
             ("Failed to fetch inventory: "
                ++ JS.Number_toString (fetch_status r) ++ " - " ++ text r)%string,
           [requestCall h userData request])) /\
    (forall r message,
        fetch h (requestCall h userData request) = inr r ->
        ok r = true ->
        json r = inl message ->
        GET h request
        = (errorResponse h message, [requestCall h userData request])).
Proof.
  intros h request u A S. rewrite (GET_fetch h request u A S).
  split; [|split].
  - now intros m ->.
  - intros r -> O. now rewrite O.
  - intros r m -> O J. now rewrite O, J.
Qed.

Lemma transport_failures_witness :
  body (fst (GET (Sample.host true
                    (inr {| ok := false; fetch_status := 403;
                            text := "Forbidden";
                            json := inl "Unexpected token"%string |}))
                 (Sample.request [])))
  = FailureBody
      {| failure_success := false;
         failure_error := "Failed to fetch inventory";
         failure_details := Some "Failed to fetch inventory: 403 - Forbidden"%string;
         failure_items := [];
         failure_total_count := 0 |}.
Proof.
  rewrite (proj1 (proj2 (transport_failures
                           (Sample.host true
                              (inr {| ok := false; fetch_status := 403;
                                      text := "Forbidden";
                                      json := inl "Unexpected token"%string |}))
                           (Sample.request [])
                           {| Sample.steamid := Some Sample.user |}
                           (sample_authenticated _ _ _) eq_refl))
             _ eq_refl eq_refl).
  reflexivity.
Defined.

(** ** The user whose inventory is read *)

(** X6.  For an authenticated request a non-empty [steamid] parameter
    decides whose inventory is fetched, whatever id the session holds; an
    absent or empty one falls back to the id of the session; with neither
    the answer is 400 and nothing is fetched. *)
Theorem steam_id_resolution :
  forall (h : Host) (request : Request) (userData : SessionData h),
    authenticated h request userData ->
    (JS.truthy (JS.get (query request) "steamid") = true ->
     req_steamId h userData request = JS.get (query request) "steamid") /\
    (JS.truthy (JS.get (query request) "steamid") = false ->
     req_steamId h userData request = session_steamid h userData) /\
    (JS.truthy (JS.get (query request) "steamid") = false ->
     JS.truthy (session_steamid h userData) = false ->
     GET h request
     = (NextResponse_json (ErrorBody "Steam ID required") 400, [])) /\
    (JS.truthy (req_steamId h userData request) = true ->
     exists call,
       snd (GET h request) = [call] /\
       cache_tags call = [userTag (str (req_steamId h userData request))]).
Proof.
  intros h request u A. unfold req_steamId at 1 2, JS.orElse.
  split; [|split; [|split]].
  - now intros ->.
  - now intros ->.
  - intros Q Se. apply (GET_no_steamid h request u A).
    unfold req_steamId, JS.orElse. now rewrite Q.
  - intros S. exists (requestCall h u request).
    rewrite (GET_fetch h request u A S). split; reflexivity.
Qed.

Lemma steam_id_resolution_witness :
  req_steamId (Sample.host false (inl "offline"%string))
              {| Sample.steamid := Some Sample.user |}
              (Sample.request [("steamid", "76561198000000002")]%string)
  = Some "76561198000000002"%string.
Proof.
  exact (proj1 (steam_id_resolution
                  (Sample.host false (inl "offline"%string))
                  (Sample.request [("steamid", "76561198000000002")]%string)
                  {| Sample.steamid := Some Sample.user |}
                  (sample_authenticated _ _ _))
               eq_refl).
Defined.

(** ** The merge, asset by asset *)

Lemma strictEq_eq (a b : option string) : JS.strictEq a b = true -> a = b.
Proof.
  destruct a as [x|], b as [y|]; simpl; try discriminate; try reflexivity.
  intros E. apply String.eqb_eq in E. now subst.
Qed.

Lemma reconcile_filter_kept (assets : list SteamAsset)
    (descs : list SteamDescription) :
  reconcile assets descs = reconcile (filter (kept descs) assets) descs.
Proof.
  induction assets as [|a l IH]; [reflexivity|].
  simpl filter. unfold kept at 1.
  destruct (mergeAsset descs a) as [item|] eqn:M; simpl JS.isSome; cbv iota.
  - rewrite !reconcile_cons, M. now rewrite IH.
  - rewrite reconcile_cons, M. exact IH.
Qed.

Lemma reconcile_kept_ids (assets : list SteamAsset)
    (descs : list SteamDescription) :
  map assetid (reconcile assets descs)
  = map asset_assetid (filter (kept descs) assets).
Proof.
  induction assets as [|a l IH]; [reflexivity|].
  rewrite reconcile_cons. cbn [filter].
  assert (K : kept descs a = JS.isSome (mergeAsset descs a)) by reflexivity.
  destruct (mergeAsset descs a) as [item|] eqn:M; simpl in K; rewrite K.
  - apply mergeAsset_Some in M. destruct M as (d & _ & -> & _).
    cbn [map]. now rewrite IH.
  - exact IH.
Qed.

(** X7.  The merged list follows the order of the assets: its asset ids are
    those of the surviving assets, in input order, and the assets dropped
    are exactly the difference in length. *)
Theorem reconcile_order :
  forall (assets : list SteamAsset) (descs : list SteamDescription),
    map assetid (reconcile assets descs)
    = map asset_assetid (filter (kept descs) assets) /\
    (List.length (reconcile assets descs)
     + List.length (filter (fun a => negb (kept descs a)) assets)
     = List.length assets)%nat.
Proof.
  intros assets descs. induction assets as [|a l [IH1 IH2]]; [split; reflexivity|].
  rewrite reconcile_cons. cbn [filter].
  assert (K : kept descs a = JS.isSome (mergeAsset descs a)) by reflexivity.
  destruct (mergeAsset descs a) as [item|] eqn:M; simpl in K; rewrite K;
    cbn [negb].
  - apply mergeAsset_Some in M. destruct M as (d & _ & -> & _).
    cbn [map List.length]. rewrite IH1. split; [reflexivity|].
    cbn [assetid merge]. simpl. lia.
  - cbn [List.length]. split; [exact IH1 | lia].
Qed.

(** X8.  Every merged item carries the identity of the asset it came from:
    asset id, amount and context id are the asset's, and its class and
    instance ids, taken from the description, equal the asset's; all five
    are non-empty. *)
Theorem merged_item_identity :
  forall (assets : list SteamAsset) (descs : list SteamDescription) (item : Item),
    In item (reconcile assets descs) ->
    exists asset,
      In asset assets /\
      assetid item = asset_assetid asset /\
      amount item = asset_amount asset /\
      contextid item = asset_contextid asset /\
      classid item = asset_classid asset /\
      instanceid item = asset_instanceid asset /\
      nonEmpty (asset_assetid asset) /\
      nonEmpty (asset_amount asset) /\
      nonEmpty (asset_contextid asset) /\
      nonEmpty (asset_classid asset) /\
      nonEmpty (asset_instanceid asset).
Proof.
  intros assets descs item Hin.
  apply In_reconcile in Hin. destruct Hin as ((a & d & Ha & Hf & ->) & V).
  apply find_some in Hf. destruct Hf as [_ Hm].
  unfold matches in Hm. apply andb_true_iff in Hm. destruct Hm as [Hc Hi].
  apply strictEq_eq in Hc, Hi.
  apply isValidInventoryItem_requiredFields in V.
  destruct V as (_ & Vctx & Vasset & Vclass & Vinst & Vamount & _).
  simpl in *. exists a. rewrite Hc, Hi in *. repeat split; assumption.
Qed.

Lemma merged_item_identity_witness :
  exists asset,
    In asset [Sample.asset] /\
    assetid (Sample.item "Card" None) = asset_assetid asset /\
    amount (Sample.item "Card" None) = asset_amount asset /\
    contextid (Sample.item "Card" None) = asset_contextid asset /\
    classid (Sample.item "Card" None) = asset_classid asset /\
    instanceid (Sample.item "Card" None) = asset_instanceid asset /\
    nonEmpty (asset_assetid asset) /\
    nonEmpty (asset_amount asset) /\
    nonEmpty (asset_contextid asset) /\
    nonEmpty (asset_classid asset) /\
    nonEmpty (asset_instanceid asset).
Proof.
  apply (merged_item_identity [Sample.asset] [Sample.description "Card" None]).
  simpl. now left.
Defined.

(** ** The encoded market name *)









(** ** The identifier helpers *)

(** The switch on known games changes nothing: an id is kept exactly when
    it is non-empty and parses. *)
Lemma getInventoryAppId_parse (a : string) :
  getInventoryAppId (Some a)
  = if negb (JS.truthy (Some a)) || JS.isNaN (JS.parseInt a) then "753"%string
    else a.
Proof.
  unfold getInventoryAppId. destruct a as [|c a]; [reflexivity|].
  simpl JS.truthy. simpl negb. cbv iota. rewrite orb_false_l.
  destruct (String.eqb_spec (String c a) "730") as [->|_]; [reflexivity|].
  destruct (String.eqb_spec (String c a) "570") as [->|_]; [reflexivity|].
  destruct (String.eqb_spec (String c a) "440") as [->|_]; [reflexivity|].
  reflexivity.
Qed.

(** X11.  The catalog id of the query always parses as an integer; it is
    the caller's id when that one is non-empty and parses, and the default
    753 in every other case; resolving a resolved id changes nothing. *)
Theorem inventory_app_id_invariants :
  forall appId : option string,
    JS.parseInt (getInventoryAppId appId) <> None /\
    (getInventoryAppId appId = "753"%string
     \/ appId = Some (getInventoryAppId appId)) /\
    getInventoryAppId (Some (getInventoryAppId appId))
    = getInventoryAppId appId /\
    (forall a, appId = Some a -> a <> EmptyString ->
               JS.parseInt a <> None -> getInventoryAppId appId = a) /\
    (forall a, appId = Some a ->
               a = EmptyString \/ JS.parseInt a = None ->
               getInventoryAppId appId = "753"%string).
Proof.
  intros [a|].
  2: { repeat split; try discriminate; auto. }
  rewrite (getInventoryAppId_parse a).
  destruct a as [|c a].
  { repeat split; try discriminate; auto. intros a [= <-] N. now elim N. }
  simpl JS.truthy. simpl negb. rewrite orb_false_l.
  destruct (JS.parseInt (String c a)) as [n|] eqn:P; simpl JS.isNaN; cbv iota.
  - split; [rewrite P; discriminate|]. split; [now right|].
    split; [rewrite (getInventoryAppId_parse (String c a)); simpl; now rewrite P|].
    split; [now intros a' [= <-]|].
    intros a' [= <-] [E|E]; [discriminate E | rewrite P in E; discriminate E].
  - split; [discriminate|]. split; [now left|]. split; [reflexivity|].
    split; [|reflexivity].
    intros a' [= <-] _ N. now elim N.
Qed.

Lemma inventory_app_id_invariants_witness :
  getInventoryAppId (Some "252490"%string) = "252490"%string.
Proof.
  apply (proj1 (proj2 (proj2 (proj2 (inventory_app_id_invariants
                                       (Some "252490"%string)))))
               "252490"%string); [reflexivity | discriminate | discriminate].
Defined.

(** X12.  The partition id is 6 or 2, and 6 exactly for an absent or empty
    id and for 753; whenever it is 6 the catalog id is 753. *)
Theorem context_id_invariants :
  forall appId : option string,
    (getContextId appId = "6"%string \/ getContextId appId = "2"%string) /\
    (getContextId appId = "6"%string <->
     JS.truthy appId = false \/ appId = Some "753"%string) /\
    (getContextId appId = "6"%string ->
     getInventoryAppId appId = "753"%string).
Proof.
  intros appId. unfold getContextId.
  destruct (JS.truthy appId) eqn:T; simpl negb; cbn [orb].
  - destruct appId as [a|]; [|discriminate T]. unfold JS.strictEq.
    destruct (String.eqb_spec a "753") as [->|N].
    + repeat split; auto.
    + split; [auto|]. split; [|discriminate].
      split; [discriminate|]. intros [E|[= E]]; [discriminate | contradiction].
  - split; [auto|]. split; [tauto|]. intros _.
    destruct appId as [[|c a]|]; try reflexivity. discriminate T.
Qed.

Lemma context_id_invariants_witness :
  getInventoryAppId (Some "753"%string) = "753"%string.
Proof.
  exact (proj2 (proj2 (context_id_invariants (Some "753"%string))) eq_refl).
Defined.

(** ** Page count and item count *)

(** X13.  With a positive page size [n] and a total that is a safe integer
    and not negative, the page count [p] of a delivered page is the ceiling
    of total over [n]: [n * (p - 1) < total <= n * p].  With a page size of
    zero or one that is not a number, the page count is not a number either
    (a JSON [null]). *)
Theorem total_pages_ceiling :
  forall (h : Host) (request : Request) (data : InventoryData),
    delivers h request data ->
    exists e,
      body (fst (GET h request)) = SuccessBody e /\
      total_count e = orZero (total_inventory_count data) /\
      (forall n, req_limit request = Some n -> 0 < n ->
                 0 <= total_count e < 9007199254740992 ->
                 exists p, total_pages e = Some p /\
                           n * (p - 1) < total_count e <= n * p) /\
      (req_limit request = Some 0 \/ req_limit request = None ->
       total_pages e = None).
Proof.
  intros h request data D.
  destruct (GET_delivers h request data D) as (u & ->).
  exists (pageEnvelope h request data).
  split; [reflexivity|]. split; [reflexivity|].
  cbn [total_pages total_count pageEnvelope]. split.
  - intros n -> Hn _. unfold JS.Math_ceil_div.
    destruct n as [|q|q]; try lia.
    eexists. split; [reflexivity|].
    pose proof (Z.div_mod (- orZero (total_inventory_count data)) (Z.pos q)
                  ltac:(lia)) as E.
    pose proof (Z.mod_pos_bound (- orZero (total_inventory_count data))
                  (Z.pos q) ltac:(lia)) as B.
    nia.
  - intros [-> | ->]; reflexivity.
Qed.

Lemma total_pages_ceiling_witness :
  exists e,
    body (fst (GET (Sample.host false
                      (Sample.okAnswer (Sample.page None None None)))
                   (Sample.request [("limit", "0")]%string)))
    = SuccessBody e /\
    total_pages e = None.
Proof.
  destruct (total_pages_ceiling
              (Sample.host false (Sample.okAnswer (Sample.page None None None)))
              (Sample.request [("limit", "0")]%string)
              (Sample.page None None None)
              (sample_delivers false (Sample.page None None None)
                 [("limit", "0")]%string eq_refl eq_refl eq_refl))
    as (e & B & _ & _ & Z0).
  exists e. split; [exact B|]. apply Z0. now left.
Defined.

Lemma insert_perm {A : Type} (cmp : A -> A -> Z) (a : A) (l : list A) :
  Permutation (JS.insert cmp a l) (a :: l).
Proof.
  induction l as [|y l IH]; simpl; [apply Permutation_refl|].
  destruct (cmp a y <=? 0); [apply Permutation_refl|].
  eapply perm_trans; [apply perm_skip, IH | apply perm_swap].
Qed.

(** The sort only reorders. *)
Lemma sort_perm {A : Type} (cmp : A -> A -> Z) (l : list A) :
  Permutation (JS.sort cmp l) l.
Proof.
  induction l as [|a l IH]; [apply Permutation_refl|].
  unfold JS.sort in *. simpl.
  eapply perm_trans; [apply insert_perm | apply perm_skip, IH].
Qed.

(** X14.  The items of a delivered page are the merged items that pass the
    filter, reordered: none is lost or repeated by the sort, there are
    never more items than assets, and without a filter there is exactly one
    item per surviving asset. *)
Theorem response_items_count :
  forall (h : Host) (request : Request) (data : InventoryData),
    delivers h request data ->
    Permutation
      (responseItems (fst (GET h request)))
      (filterByAppId (req_appId request)
         (reconcile (orEmpty (inv_assets data))
                    (orEmpty (inv_descriptions data)))) /\
    (List.length (responseItems (fst (GET h request)))
     <= List.length (orEmpty (inv_assets data)))%nat /\
    (JS.truthy (req_appId request) = false ->
     List.length (responseItems (fst (GET h request)))
     = List.length (filter (kept (orEmpty (inv_descriptions data)))
                      (orEmpty (inv_assets data)))).
Proof.
  intros h request data D.
  rewrite (responseItems_delivers h request data D). unfold pageItems.
  pose proof (sort_perm (compareItems (localeCompare h))
                (filterByAppId (req_appId request)
                   (reconcile (orEmpty (inv_assets data))
                              (orEmpty (inv_descriptions data))))) as P.
  split; [exact P|]. rewrite (Permutation_length P).
  pose proof (reconcile_length (orEmpty (inv_assets data))
                (orEmpty (inv_descriptions data))) as L.
  split.
  - unfold filterByAppId. destruct (JS.truthy (req_appId request)); [|exact L].
    eapply Nat.le_trans; [apply filter_length_le | exact L].
  - intros T. unfold filterByAppId. rewrite T.
    rewrite <- (length_map assetid), <- (length_map asset_assetid).
    f_equal. apply reconcile_kept_ids.
Qed.

Lemma response_items_count_witness :
  (List.length
     (responseItems
        (fst (GET (Sample.host false
                     (Sample.okAnswer
                        (Sample.page None (Some [Sample.asset; Sample.asset])
                           (Some [Sample.description "Card" None]))))
                  (Sample.request []))))
   <= 2)%nat.
Proof.
  exact (proj1 (proj2 (response_items_count
                         (Sample.host false
                            (Sample.okAnswer
                               (Sample.page None (Some [Sample.asset; Sample.asset])
                                  (Some [Sample.description "Card" None]))))
                         (Sample.request [])
                         (Sample.page None (Some [Sample.asset; Sample.asset])
                            (Some [Sample.description "Card" None]))
                         (sample_delivers false
                            (Sample.page None (Some [Sample.asset; Sample.asset])
                               (Some [Sample.description "Card" None]))
                            [] eq_refl eq_refl eq_refl)))).
Defined.

(** ** The outbound URL for ids of letters and digits *)

Lemma code_tab_newline (c : ascii) :
  (JS.code c =? 9) = Ascii.eqb c (ascii_of_N 9) /\
  (JS.code c =? 10) = Ascii.eqb c (ascii_of_N 10) /\
  (JS.code c =? 13) = Ascii.eqb c (ascii_of_N 13).
Proof. destruct c as [[] [] [] [] [] [] [] []]; vm_compute; auto. Qed.

Lemma removeTabNewline_absent (s : string) :
  occurs (ascii_of_N 9) s = false ->
  occurs (ascii_of_N 10) s = false ->
  occurs (ascii_of_N 13) s = false ->
  JS.removeTabNewline s = s.
Proof.
  induction s as [|c s IH]; [reflexivity|].
  cbn [occurs JS.removeTabNewline]. intros T L R.
  apply orb_false_iff in T, L, R.
  destruct T as [Tc Ts], L as [Lc Ls], R as [Rc Rs].
  destruct (code_tab_newline c) as (E9 & E10 & E13).
  rewrite E9, E10, E13, Tc, Lc, Rc. cbn [orb]. now rewrite IH.
Qed.

Lemma plain_occurs (s : string) :
  plain s = true <->
  occurs "?" s = false /\ occurs "#" s = false /\
  occurs (ascii_of_N 9) s = false /\ occurs (ascii_of_N 10) s = false /\
  occurs (ascii_of_N 13) s = false.
Proof.
  unfold plain. rewrite !andb_true_iff, !negb_true_iff. tauto.
Qed.

Lemma plain_append (a b : string) :
  plain a = true -> plain b = true -> plain (a ++ b)%string = true.
Proof.
  rewrite !plain_occurs, !occurs_append.
  intros (A1 & A2 & A3 & A4 & A5) (B1 & B2 & B3 & B4 & B5).
  now rewrite A1, A2, A3, A4, A5, B1, B2, B3, B4, B5.
Qed.

(** A plain text is read as a path alone: no query, no fragment. *)
Lemma new_URL_plain (rest : string) :
  plain rest = true -> JS.new_URL rest = JS.mkURL rest [] None.
Proof.
  intros P. apply plain_occurs in P. destruct P as (Q & H & T & L & R).
  unfold JS.new_URL. rewrite (removeTabNewline_absent rest T L R).
  rewrite (cut_absent "#" rest H), (cut_absent "?" rest Q). reflexivity.
Qed.

Lemma inventoryUrl_plain (steamId inventoryAppId contextId : string)
    (page limit : option Z) (cursor : option string) :
  plain steamId = true ->
  plain inventoryAppId = true ->
  plain contextId = true ->
  inventoryUrl steamId inventoryAppId contextId page limit cursor
  = JS.mkURL
      ("/inventory/" ++ steamId ++ "/" ++ inventoryAppId ++ "/" ++ contextId)%string
      ([("l", "english"); ("count", JS.toString limit)]%string
         ++ (if JS.gt page 1 && JS.truthy cursor
             then [("start_assetid"%string, str cursor)] else []))
      None.
Proof.
  intros Ps Pa Pc.
  assert (N : JS.new_URL ("/inventory/" ++ steamId ++ "/" ++ inventoryAppId
                            ++ "/" ++ contextId)%string
              = JS.mkURL ("/inventory/" ++ steamId ++ "/" ++ inventoryAppId
                            ++ "/" ++ contextId)%string [] None).
  { apply new_URL_plain.
    repeat (apply plain_append; [try reflexivity; assumption|]). exact Pc. }
  unfold inventoryUrl. rewrite N.
  destruct (JS.gt page 1), (JS.truthy cursor); reflexivity.
Qed.

Lemma isSegmentChar_plain (c : ascii) :
  isSegmentChar c = true ->
  Ascii.eqb c "?" = false /\ Ascii.eqb c "#" = false /\
  Ascii.eqb c (ascii_of_N 9) = false /\ Ascii.eqb c (ascii_of_N 10) = false /\
  Ascii.eqb c (ascii_of_N 13) = false.
Proof.
  destruct c as [[] [] [] [] [] [] [] []]; vm_compute; intros H;
    (discriminate H || auto).
Qed.

(** Letters, digits, hyphens and underscores are plain. *)
Lemma segment_plain (s : string) : segment s = true -> plain s = true.
Proof.
  intros S. apply plain_occurs.
  induction s as [|c s IH]; [repeat split|].
  cbn [segment] in S. apply andb_true_iff in S. destruct S as [Sc Ss].
  destruct (isSegmentChar_plain c Sc) as (Q & H & T & L & R).
  destruct (IH Ss) as (Q' & H' & T' & L' & R').
  cbn [occurs]. now rewrite Q, H, T, L, R, Q', H', T', L', R'.
Qed.

Lemma segment_getInventoryAppId (appId : option string) :
  segment (str appId) = true -> segment (getInventoryAppId appId) = true.
Proof.
  intros Pa. destruct appId as [a|]; [|reflexivity].
  unfold getInventoryAppId. destruct (negb (JS.truthy (Some a))); [reflexivity|].
  destruct (_ || _ || _)%bool; [exact Pa|].
  destruct (JS.isNaN (JS.parseInt a)); [reflexivity | exact Pa].
Qed.

Lemma segment_getContextId (appId : option string) :
  segment (getContextId appId) = true.
Proof.
  unfold getContextId.
  destruct (negb (JS.truthy appId) || JS.strictEq appId (Some "753"%string));
    reflexivity.
Qed.



(** ** Cache headers of a delivered page *)

Lemma string_append_assoc (a b c : string) :
  ((a ++ b) ++ c = a ++ (b ++ c))%string.
Proof. induction a as [|x a IH]; [reflexivity|]. simpl. now rewrite IH. Qed.

(** X16.  On the answer to a delivered page the handler sets two headers:
    [Cache-Control], the five-minute shared-cache policy, and
    [x-cache-tags], cache tags that begin with the very tag given to the
    outbound call, followed by the tag of the collection filter when the
    request has one. *)
Theorem success_headers :
  forall (h : Host) (request : Request) (data : InventoryData),
    delivers h request data ->
    exists call tag,
      snd (GET h request) = [call] /\
      cache_tags call = [tag] /\
      JS.get (headers (fst (GET h request))) "Cache-Control"
      = Some "s-maxage=300, stale-while-revalidate"%string /\
      JS.get (headers (fst (GET h request))) "x-cache-tags"
      = Some (tag ++ (if JS.truthy (req_appId request)
                      then ",app-" ++ str (req_appId request) ++ "-inventory"
                      else ""))%string.
Proof.
  intros h request data D.
  destruct (GET_delivers h request data D) as (u & ->).
  exists (requestCall h u request),
         (userTag (str (req_steamId h u request))).
  split; [reflexivity|]. split; [reflexivity|].
  cbn [fst pageResponse headers headers_set NextResponse_json setHeader].
  change (String.eqb "Cache-Control" "x-cache-tags") with false. cbv iota.
  split; [reflexivity|].
  cbn [JS.get].
  change (String.eqb "Cache-Control" "x-cache-tags") with false. cbv iota.
  rewrite String.eqb_refl.
  unfold cacheTags, userTag.
  now rewrite !string_append_assoc.
Qed.

Lemma success_headers_witness :
  JS.get (headers (fst (GET (Sample.host false
                               (Sample.okAnswer (Sample.page None None None)))
                            (Sample.request [("appid", "730")]%string))))
         "x-cache-tags"
  = Some "user-76561198000000001-inventory,app-730-inventory"%string.
Proof.
  destruct (success_headers
              (Sample.host false (Sample.okAnswer (Sample.page None None None)))
              (Sample.request [("appid", "730")]%string)
              (Sample.page None None None)
              (sample_delivers false (Sample.page None None None)
                 [("appid", "730")]%string eq_refl eq_refl eq_refl))
    as (call & tag & L & T & _ & H).
  injection L as <-. injection T as <-. exact H.
Defined.

(** ** The collection filter and the catalog fetched *)



(** ** Which description an asset is merged with *)




(** ** Decimal strings parse to their number *)

Lemma readDigits_acc (d : uint) (acc : positive) :
  JS.readDigits 10 (Some (Z.pos acc)) (NilEmpty.string_of_uint d)
  = Some (Z.pos (Pos.of_uint_acc d acc)).
Proof.
  revert acc. induction d as [|d IH|d IH|d IH|d IH|d IH|d IH|d IH|d IH|d IH|d IH];
    intros acc; [reflexivity|..];
    cbn [NilEmpty.string_of_uint JS.readDigits Pos.of_uint_acc];
    match goal with
    | |- context [JS.radixDigit 10 ?c] =>
      let v := eval vm_compute in (JS.radixDigit 10 c) in
      change (JS.radixDigit 10 c) with v
    end;
    cbv iota; rewrite <- IH; do 2 f_equal; lia.
Qed.

Lemma readDigits_from_zero (d : uint) :
  JS.readDigits 10 (Some 0) (NilEmpty.string_of_uint d)
  = Some (Z.of_N (Pos.of_uint d)).
Proof.
  induction d as [|d IH|d IH|d IH|d IH|d IH|d IH|d IH|d IH|d IH|d IH];
    [reflexivity|exact IH|..];
    cbn [NilEmpty.string_of_uint JS.readDigits Pos.of_uint];
    match goal with
    | |- context [JS.radixDigit 10 ?c] =>
      let v := eval vm_compute in (JS.radixDigit 10 c) in
      change (JS.radixDigit 10 c) with v
    end;
    cbv iota; apply readDigits_acc.
Qed.

Lemma readDigits_decimal (d : uint) :
  d <> Nil ->
  JS.readDigits 10 None (NilEmpty.string_of_uint d)
  = Some (Z.of_N (Pos.of_uint d)).
Proof.
  destruct d as [|d|d|d|d|d|d|d|d|d|d]; intros N; [now elim N|..];
    cbn [NilEmpty.string_of_uint JS.readDigits Pos.of_uint];
    match goal with
    | |- context [JS.radixDigit 10 ?c] =>
      let v := eval vm_compute in (JS.radixDigit 10 c) in
      change (JS.radixDigit 10 c) with v
    end;
    cbv iota; first [apply readDigits_from_zero | apply readDigits_acc].
Qed.

Lemma parseUnsigned_decimal (c : ascii) (s : string) :
  isDigit c = true -> allDigits s = true ->
  JS.parseUnsigned (String c s) = JS.readDigits 10 None (String c s).
Proof.
  intros D Ds. unfold JS.parseUnsigned. destruct s as [|x s]; [reflexivity|].
  simpl in Ds. apply andb_true_iff in Ds. destruct Ds as [Dx _].
  now rewrite (isDigit_not_X x Dx), andb_false_r.
Qed.

Lemma parseUnsigned_uint (d : uint) :
  d <> Nil ->
  JS.parseUnsigned (NilEmpty.string_of_uint d) = Some (Z.of_N (Pos.of_uint d)).
Proof.
  intros N. rewrite <- (readDigits_decimal d N).
  pose proof (allDigits_string_of_uint d) as A.
  destruct (NilEmpty.string_of_uint d) as [|c s] eqn:E.
  - destruct d; discriminate E || now elim N.
  - simpl in A. apply andb_true_iff in A. destruct A as [Dc Ds].
    now apply parseUnsigned_decimal.
Qed.

Lemma parseInt_uint (d : uint) :
  d <> Nil ->
  JS.parseInt (NilEmpty.string_of_uint d) = Some (Z.of_N (Pos.of_uint d)).
Proof.
  intros N. rewrite <- (parseUnsigned_uint d N).
  pose proof (allDigits_string_of_uint d) as A.
  destruct (NilEmpty.string_of_uint d) as [|c s] eqn:E.
  - destruct d; discriminate E || now elim N.
  - simpl in A. apply andb_true_iff in A. destruct A as [Dc Ds].
    pose proof Dc as D'. unfold isDigit in D'. apply andb_true_iff in D'.
    destruct D' as [D1 D2]. apply Z.leb_le in D1, D2.
    unfold JS.parseInt. rewrite trimStart_ascii.
    + destruct (Z.eqb_spec (JS.code c) 45); [lia|].
      destruct (Z.eqb_spec (JS.code c) 43); [lia|]. reflexivity.
    + unfold JS.isWhite1.
      destruct (Z.leb_spec (JS.code c) 13); [lia|].
      destruct (Z.eqb_spec (JS.code c) 32); [lia|]. now rewrite andb_false_r.
    + lia.
Qed.

(** [parseInt] reads the decimal digits of an integer back to it. *)
Lemma parseInt_decimal (n : Z) : JS.parseInt (JS.Number_toString n) = Some n.
Proof.
  unfold JS.Number_toString. destruct n as [|p|p].
  - reflexivity.
  - cbn [Z.to_int NilZero.string_of_int]. unfold NilZero.string_of_uint.
    pose proof (DecimalPos.Unsigned.to_uint_nonnil p) as N.
    pose proof (parseInt_uint (Pos.to_uint p) N) as P.
    rewrite (DecimalPos.Unsigned.of_to p) in P.
    destruct (Pos.to_uint p); [now elim N | exact P..].
  - cbn [Z.to_int NilZero.string_of_int]. unfold NilZero.string_of_uint.
    pose proof (DecimalPos.Unsigned.to_uint_nonnil p) as N.
    pose proof (parseUnsigned_uint (Pos.to_uint p) N) as P.
    rewrite (DecimalPos.Unsigned.of_to p) in P.
    unfold JS.parseInt. rewrite trimStart_ascii; [|reflexivity|reflexivity].
    change (JS.code "-" =? 45) with true. cbv iota.
    destruct (Pos.to_uint p); [now elim N | rewrite P; reflexivity..].
Qed.

(** X19.  [parseInt] reads the decimal form of a safe integer back to that
    integer, so for an item whose appid is a safe integer the string
    comparison of the collection filter implies the numeric one: a filter
    that keeps the item parses to its appid.  The converse does not hold:
    [0753] parses to 753 and keeps no item of catalog 753. *)
Theorem filter_match_is_numeric :
  forall (a : string) (item : Item) (n : Z),
    appid item = Some (JS.Int n) ->
    JS.isSafeInteger (JS.Int n) = true ->
    (appidIs a item = true -> JS.parseInt a = Some n) /\
    JS.parseInt (JS.Number_toString n) = Some n /\
    appidIs (JS.Number_toString n) item = true /\
    JS.parseInt "0753" = Some 753 /\
    appidIs "0753" (Sample.item "Card" None) = false.
Proof.
  intros a item n Hn _.
  split; [|split; [apply parseInt_decimal|split; [|split; reflexivity]]].
  - unfold appidIs. rewrite Hn. cbn [JS.number_toString]. intros H.
    apply String.eqb_eq in H. subst a. apply parseInt_decimal.
  - unfold appidIs. rewrite Hn. cbn [JS.number_toString].
    apply String.eqb_refl.
Qed.

Lemma filter_match_is_numeric_witness :
  JS.parseInt "753" = Some 753.
Proof.
  exact (proj1 (filter_match_is_numeric "753" (Sample.item "Card" None) 753
                  eq_refl eq_refl)
               eq_refl).
Defined.

(** ** Colored items come first *)

Lemma compareItems_color_first (lc : string -> string -> Z) (x y : Item) :
  hasColor x = true -> hasColor y = false ->
  compareItems lc x y = -1 /\ compareItems lc y x = 1.
Proof.
  unfold hasColor, compareItems. intros -> ->. split; reflexivity.
Qed.

Lemma insert_cons {A : Type} (cmp : A -> A -> Z) (x y : A) (l : list A) :
  JS.insert cmp x (y :: l)
  = if cmp x y <=? 0 then x :: y :: l else y :: JS.insert cmp x l.
Proof. reflexivity. Qed.

Lemma insert_colored (lc : string -> string -> Z) (x : Item)
    (colored plainItems : list Item) :
  hasColor x = true ->
  forallb noColor plainItems = true ->
  JS.insert (compareItems lc) x (colored ++ plainItems)
  = JS.insert (compareItems lc) x colored ++ plainItems.
Proof.
  intros Hx Hp. induction colored as [|a l IH].
  - destruct plainItems as [|b l]; [reflexivity|].
    cbn [forallb] in Hp. apply andb_true_iff in Hp. destruct Hp as [Hb _].
    unfold noColor in Hb. apply negb_true_iff in Hb.
    change ([] ++ b :: l) with (b :: l).
    rewrite insert_cons, (proj1 (compareItems_color_first lc x b Hx Hb)).
    reflexivity.
  - change ((a :: l) ++ plainItems) with (a :: (l ++ plainItems)).
    rewrite !insert_cons.
    destruct (compareItems lc x a <=? 0); [reflexivity|].
    now rewrite IH.
Qed.

Lemma insert_uncolored (lc : string -> string -> Z) (x : Item)
    (colored plainItems : list Item) :
  hasColor x = false ->
  forallb hasColor colored = true ->
  JS.insert (compareItems lc) x (colored ++ plainItems)
  = colored ++ JS.insert (compareItems lc) x plainItems.
Proof.
  intros Hx Hc. induction colored as [|a l IH]; [reflexivity|].
  cbn [forallb] in Hc. apply andb_true_iff in Hc. destruct Hc as [Ha Hl].
  change ((a :: l) ++ plainItems) with (a :: (l ++ plainItems)).
  rewrite insert_cons, (proj2 (compareItems_color_first lc a x Ha Hx)).
  change (1 <=? 0) with false. cbv iota. now rewrite (IH Hl).
Qed.

Lemma forallb_sort_filter (lc : string -> string -> Z) (p : Item -> bool)
    (l : list Item) :
  forallb p (JS.sort (compareItems lc) (filter p l)) = true.
Proof.
  apply forallb_forall. intros x Hin.
  apply In_sort, filter_In in Hin. tauto.
Qed.

(** The sort handles the two groups separately. *)
Lemma sort_by_color (lc : string -> string -> Z) (l : list Item) :
  JS.sort (compareItems lc) l
  = JS.sort (compareItems lc) (filter hasColor l)
    ++ JS.sort (compareItems lc) (filter noColor l).
Proof.
  induction l as [|x l IH]; [reflexivity|].
  change (JS.sort (compareItems lc) (x :: l))
    with (JS.insert (compareItems lc) x (JS.sort (compareItems lc) l)).
  rewrite IH. cbn [filter]. unfold noColor at 2.
  destruct (hasColor x) eqn:Hx; cbn [negb].
  - rewrite insert_colored;
      [reflexivity | exact Hx | apply forallb_sort_filter].
  - rewrite insert_uncolored;
      [reflexivity | exact Hx | apply forallb_sort_filter].
Qed.

(** X20.  In a delivered page the items with a rarity color come first and
    those without come after: the list is the sorted colored items followed
    by the sorted uncolored ones. *)
Theorem colored_items_first :
  forall (h : Host) (request : Request) (data : InventoryData),
    delivers h request data ->
    exists colored uncolored,
      responseItems (fst (GET h request)) = colored ++ uncolored /\
      forallb hasColor colored = true /\
      forallb noColor uncolored = true /\
      colored
      = JS.sort (compareItems (localeCompare h))
          (filter hasColor
             (filterByAppId (req_appId request)
                (reconcile (orEmpty (inv_assets data))
                           (orEmpty (inv_descriptions data))))) /\
      uncolored
      = JS.sort (compareItems (localeCompare h))
          (filter noColor
             (filterByAppId (req_appId request)
                (reconcile (orEmpty (inv_assets data))
                           (orEmpty (inv_descriptions data))))).
Proof.
  intros h request data D.
  rewrite (responseItems_delivers h request data D). unfold pageItems.
  rewrite sort_by_color. do 2 eexists. split; [reflexivity|].
  split; [apply forallb_sort_filter|]. split; [apply forallb_sort_filter|].
  split; reflexivity.
Qed.

Lemma colored_items_first_witness :
  exists colored uncolored,
    responseItems
      (fst (GET (Sample.host false
                   (Sample.okAnswer
                      (Sample.page None (Some [Sample.asset])
                         (Some [Sample.description "Card" (Some "D2D2D2"%string)]))))
                (Sample.request [])))
    = colored ++ uncolored /\
    forallb hasColor colored = true /\
    forallb noColor uncolored = true.
Proof.
  destruct (colored_items_first
              (Sample.host false
                 (Sample.okAnswer
                    (Sample.page None (Some [Sample.asset])
                       (Some [Sample.description "Card" (Some "D2D2D2"%string)]))))
              (Sample.request [])
              (Sample.page None (Some [Sample.asset])
                 (Some [Sample.description "Card" (Some "D2D2D2"%string)]))
              (sample_delivers false
                 (Sample.page None (Some [Sample.asset])
                    (Some [Sample.description "Card" (Some "D2D2D2"%string)]))
                 [] eq_refl eq_refl eq_refl))
    as (c & u & E & Hc & Hu & _).
  exists c, u. auto.
Defined.

(** ** The envelope names the catalog that was fetched *)

(** X21.  When the user id and the collection id of the request are made
    of letters, digits, hyphens and underscores, the path of the outbound
    call is [/inventory/] followed by the user id and by the very catalog
    and partition ids that the envelope of the delivered page reports as
    [app_id] and [context_id]. *)
Theorem envelope_reports_fetched_catalog :
  forall (h : Host) (request : Request) (data : InventoryData),
    delivers h request data ->
    exists userData call e,
      authenticated h request userData /\
      snd (GET h request) = [call] /\
      body (fst (GET h request)) = SuccessBody e /\
      (segment (str (req_steamId h userData request)) = true ->
       segment (str (req_appId request)) = true ->
       JS.pathname (url call)
       = ("/inventory/" ++ str (req_steamId h userData request)
            ++ "/" ++ app_id e ++ "/" ++ context_id e)%string /\
       JS.hash (url call) = None).
Proof.
  intros h request data ((u & r & A & S & F & O & J) & Err & Mc & Tg).
  exists u, (requestCall h u request), (pageEnvelope h request data).
  rewrite (tagsAccepted_authenticated h request u A) in Tg.
  rewrite (GET_fetch h request u A S), F, O, J, Err, Mc, Tg.
  split; [exact A|]. split; [reflexivity|]. split; [reflexivity|].
  - intros Ps Pa. unfold requestCall. cbn [url app_id context_id pageEnvelope].
    rewrite (inventoryUrl_plain _ _ _ _ _ _ (segment_plain _ Ps)
               (segment_plain _ (segment_getInventoryAppId _ Pa))
               (segment_plain _ (segment_getContextId _))).
    split; reflexivity.
Qed.

Lemma envelope_reports_fetched_catalog_witness :
  exists call e,
    snd (GET (Sample.host false (Sample.okAnswer (Sample.page None None None)))
             (Sample.request [("appid", "730")]%string)) = [call] /\
    body (fst (GET (Sample.host false
                      (Sample.okAnswer (Sample.page None None None)))
                   (Sample.request [("appid", "730")]%string)))
    = SuccessBody e /\
    JS.pathname (url call)
    = ("/inventory/" ++ Sample.user ++ "/" ++ app_id e ++ "/" ++ context_id e)%string.
Proof.
  destruct (envelope_reports_fetched_catalog
              (Sample.host false (Sample.okAnswer (Sample.page None None None)))
              (Sample.request [("appid", "730")]%string)
              (Sample.page None None None)
              (sample_delivers false (Sample.page None None None)
                 [("appid", "730")]%string eq_refl eq_refl eq_refl))
    as (u & call & e & (_ & P & _) & L & B & Path).
  injection P as <-.
  exists call, e. split; [exact L|]. split; [exact B|].
  exact (proj1 (Path eq_refl eq_refl)).
Defined.
